(** * Certificate authorities of lib/services: validation, codec, pools

    A shallow embedding of [lib/services/authority.go] and
    [lib/services/clustername.go].  Go values that are reached through a
    pointer and mutated in place are modelled by explicit state passing: a
    method with a pointer receiver takes the object and returns the object it
    leaves behind together with its result.  Where the caller's object can be
    aliased (the marshal functions), objects live in a store indexed by
    addresses.

    Code that the two files call but that lives in other packages (key
    parsers, the JSON codec, the resources' own [CheckAndSetDefaults], the
    [fmt] verbs, package constants) is collected in the class [Collaborators];
    every result quantifies over it.

    The functions of the two files read a CA through its getters and see
    sequences; the data model holds those.  The deep comparison of
    [CertAuthoritiesEquivalent] also tells a nil slice from an empty one, so
    it is embedded over Go objects that keep the difference, each with the
    data it holds as its [model]. *)

From Stdlib Require Import ZArith Strings.Byte.
From stdpp Require Import base option list strings gmap.

Local Open Scope Z_scope.
Local Open Scope string_scope.

(** ** Bytes, errors, results *)

#[global] Instance byte_eq_dec : EqDecision byte := Byte.byte_eq_dec.

(** [[]byte] *)
Definition bytes := list byte.

(** [error] values.  [trace.BadParameter(format, args...)] builds a
    bad-parameter error whose message is the formatted text; any other error
    a collaborator may hand back is [OtherError]. *)
Inductive error : Type :=
| BadParameter (msg : string)
| OtherError (msg : string).

#[global] Instance error_eq_dec : EqDecision error.
Proof. solve_decision. Defined.

(** [err.Error()] *)
Definition Error (e : error) : string :=
  match e with
  | BadParameter m => m
  | OtherError m => m
  end.

(** [(T, error)] returns: exactly one of the two is meaningful. *)
Inductive result (A : Type) : Type :=
| Ok (a : A)
| Err (e : error).
Arguments Ok {A} a.
Arguments Err {A} e.

Definition is_Err {A} (r : result A) : Prop := ∃ e, r = Err e.
Definition is_Ok {A} (r : result A) : Prop := ∃ a, r = Ok a.

(** [trace.Wrap(err)] keeps the error it is given ([nil] stays [nil]); it
    only attaches a stack trace, which the model does not carry. *)
Definition Wrap (err : option error) : option error := err.

(** ** Data model *)

(** [time.Time], counted from Go's zero instant: [IsZero] holds of [0] only. *)
Definition Time := Z.
Definition IsZero (t : Time) : bool := bool_decide (t = 0).

(** Modelled from the spec: [types.Metadata] is declared in api/types, not in
    the two files embedded here; the fields are the ones the spec lists for
    the generic header: [metadata{id, expiry, name}].  [Expires] is a pointer
    in Go, so it may be absent. *)
Module Metadata.
Record t : Type := mk {
  Name : string;
  Expires : option Time;
  ID : Z;
}.
#[global] Instance Metadata_eq_dec : EqDecision t.
Proof. solve_decision. Defined.

(** [m.ID = id] *)
Definition SetResourceID (id : Z) (m : t) : t :=
  {| Name := Name m; Expires := Expires m; ID := id |}.
(** [m.Expires = &expires] *)
Definition SetExpiry (expires : Time) (m : t) : t :=
  {| Name := Name m; Expires := Some expires; ID := ID m |}.
End Metadata.

(** Modelled from the spec: [types.ResourceHeader] (api/types); the generic
    header carries [kind], [version] and the metadata. *)
Module ResourceHeader.
Record t : Type := mk {
  Kind : string;
  Version : string;
  Metadata : Metadata.t;
}.
#[global] Instance ResourceHeader_eq_dec : EqDecision t.
Proof. solve_decision. Defined.
End ResourceHeader.

(** Modelled from the spec: [types.CertAuthType] (api/types), the
    enumeration {HostCA, UserCA, JWTSigner}.  It is a string type in Go, so
    a CA can carry any other name; the validator sends those to its
    [default] branch. *)
Inductive CertAuthType : Type :=
| HostCA
| UserCA
| JWTSigner
| OtherCertAuthType (name : string).

#[global] Instance CertAuthType_eq_dec : EqDecision CertAuthType.
Proof. solve_decision. Defined.

(** Modelled from the spec: [types.TLSKeyPair] (api/types), a certificate
    and its private key, both in PEM form. *)
Module TLSKeyPair.
Record t : Type := mk {
  Cert : bytes;
  Key : bytes;
}.
#[global] Instance TLSKeyPair_eq_dec : EqDecision t.
Proof. solve_decision. Defined.
End TLSKeyPair.

(** Modelled from the spec: [types.JWTKeyPair] (api/types), a public key
    and an optional private key. *)
Module JWTKeyPair.
Record t : Type := mk {
  PublicKey : bytes;
  PrivateKey : bytes;
}.
#[global] Instance JWTKeyPair_eq_dec : EqDecision t.
Proof. solve_decision. Defined.
End JWTKeyPair.

(** Modelled from the spec: one rule of a [types.RoleMap] (api/types), a
    pattern for the external name and the local roles it maps to. *)
Module RoleMapping.
Record t : Type := mk {
  Remote : string;
  Local : list string;
}.
#[global] Instance RoleMapping_eq_dec : EqDecision t.
Proof. solve_decision. Defined.
End RoleMapping.

Definition RoleMap := list RoleMapping.t.

(** Modelled from the spec: [types.CertAuthoritySpecV2] (api/types), with
    the fields of the spec's data model; they are the ones the code sets in
    [NewCertAuthority] and [NewJWTAuthority] and reads through the getters. *)
Module CertAuthoritySpecV2.
Record t : Type := mk {
  Type_ : CertAuthType;
  ClusterName : string;
  SigningKeys : list bytes;
  CheckingKeys : list bytes;
  TLSKeyPairs : list TLSKeyPair.t;
  JWTKeyPairs : list JWTKeyPair.t;
  Roles : list string;
  RoleMap : RoleMap;
  SigningAlg : Z;
}.
#[global] Instance CertAuthoritySpecV2_eq_dec : EqDecision t.
Proof. solve_decision. Defined.
End CertAuthoritySpecV2.

(** Modelled from the spec: [types.CertAuthorityV2] (api/types), the one
    implementation of the [types.CertAuthority] interface: the generic
    header followed by the type-specific fields.  [Metadata] is held by
    value. *)
Module CertAuthorityV2.
Record t : Type := mk {
  Kind : string;
  Version : string;
  Metadata : Metadata.t;
  Spec : CertAuthoritySpecV2.t;
}.
#[global] Instance CertAuthorityV2_eq_dec : EqDecision t.
Proof. solve_decision. Defined.
End CertAuthorityV2.

(** Modelled from the spec: [types.ClusterNameV2] (api/types), the generic
    header and the cluster name; its methods [GetVersion], [SetResourceID]
    and [SetExpiry] read and write the header. *)
Module ClusterNameV2.
Record spec : Type := mkSpec {
  ClusterName : string;
}.
Record t : Type := mk {
  Kind : string;
  Version : string;
  Metadata : Metadata.t;
  Spec : spec;
}.
#[global] Instance ClusterNameV2_spec_eq_dec : EqDecision spec.
Proof. solve_decision. Defined.
#[global] Instance ClusterNameV2_eq_dec : EqDecision t.
Proof. solve_decision. Defined.

(** Methods of [*ClusterNameV2] used by the codec. *)
Definition GetVersion (c : t) : string := Version c.
Definition GetResourceID (c : t) : Z := Metadata.ID (Metadata c).
Definition Expiry (c : t) : option Time := Metadata.Expires (Metadata c).
Definition SetResourceID (id : Z) (c : t) : t :=
  {| Kind := Kind c; Version := Version c;
     Metadata := Metadata.SetResourceID id (Metadata c); Spec := Spec c |}.
Definition SetExpiry (expires : Time) (c : t) : t :=
  {| Kind := Kind c; Version := Version c;
     Metadata := Metadata.SetExpiry expires (Metadata c); Spec := Spec c |}.
End ClusterNameV2.

(** *** Getters and setters of the [types.CertAuthority] interface

    Modelled from the spec: the methods are implemented in api/types; each
    getter returns the field of its name, and [SetResourceID] writes the
    resource ID of the metadata. *)

Definition GetType (ca : CertAuthorityV2.t) : CertAuthType :=
  CertAuthoritySpecV2.Type_ (CertAuthorityV2.Spec ca).
Definition GetClusterName (ca : CertAuthorityV2.t) : string :=
  CertAuthoritySpecV2.ClusterName (CertAuthorityV2.Spec ca).
Definition GetSigningKeys (ca : CertAuthorityV2.t) : list bytes :=
  CertAuthoritySpecV2.SigningKeys (CertAuthorityV2.Spec ca).
Definition GetCheckingKeys (ca : CertAuthorityV2.t) : list bytes :=
  CertAuthoritySpecV2.CheckingKeys (CertAuthorityV2.Spec ca).
Definition GetTLSKeyPairs (ca : CertAuthorityV2.t) : list TLSKeyPair.t :=
  CertAuthoritySpecV2.TLSKeyPairs (CertAuthorityV2.Spec ca).
Definition GetJWTKeyPairs (ca : CertAuthorityV2.t) : list JWTKeyPair.t :=
  CertAuthoritySpecV2.JWTKeyPairs (CertAuthorityV2.Spec ca).
Definition GetRoles (ca : CertAuthorityV2.t) : list string :=
  CertAuthoritySpecV2.Roles (CertAuthorityV2.Spec ca).
Definition GetRoleMap (ca : CertAuthorityV2.t) : RoleMap :=
  CertAuthoritySpecV2.RoleMap (CertAuthorityV2.Spec ca).
Definition GetVersion (ca : CertAuthorityV2.t) : string :=
  CertAuthorityV2.Version ca.
Definition GetResourceID (ca : CertAuthorityV2.t) : Z :=
  Metadata.ID (CertAuthorityV2.Metadata ca).
Definition Expiry (ca : CertAuthorityV2.t) : option Time :=
  Metadata.Expires (CertAuthorityV2.Metadata ca).
Definition SetResourceID (id : Z) (ca : CertAuthorityV2.t) : CertAuthorityV2.t :=
  {| CertAuthorityV2.Kind := CertAuthorityV2.Kind ca;
     CertAuthorityV2.Version := CertAuthorityV2.Version ca;
     CertAuthorityV2.Metadata :=
       Metadata.SetResourceID id (CertAuthorityV2.Metadata ca);
     CertAuthorityV2.Spec := CertAuthorityV2.Spec ca |}.

(** The header of a resource, as the codec peeks it. *)
Definition CertAuthority_header (ca : CertAuthorityV2.t) : ResourceHeader.t :=
  {| ResourceHeader.Kind := CertAuthorityV2.Kind ca;
     ResourceHeader.Version := CertAuthorityV2.Version ca;
     ResourceHeader.Metadata := CertAuthorityV2.Metadata ca |}.

(** ** Go values, as a deep comparison sees them *)

(** A Go value up to what [cmp.Equal] of go-cmp can tell apart: a nil slice
    or pointer is [GoNil], an empty slice that is not nil is [GoSlice []]; a
    struct carries the name of its type and its fields in order. *)
Local Unset Elimination Schemes.
Inductive GoValue : Type :=
| GoString (s : string)
| GoInt (n : Z)
| GoByte (b : byte)
| GoTime (t : Time)
| GoCertAuthType (t : CertAuthType)
| GoNil
| GoSlice (elems : list GoValue)
| GoPtr (target : GoValue)
| GoStruct (typeName : string) (fields : list (string * GoValue)).

Local Set Elimination Schemes.

(** Two lists are compared position by position, and must have the same
    length. *)
Definition all2 {A B} (f : A → B → bool) : list A → list B → bool :=
  fix go l1 l2 :=
    match l1, l2 with
    | [], [] => true
    | a :: l1, b :: l2 => f a b && go l1 l2
    | _, _ => false
    end.

(** [cmp.Equal] of go-cmp, after its documentation.  Values of basic kinds
    are compared with [==]; a [time.Time] with its [Equal] method; slices are
    equal when both are nil, or both are not nil, have the same length and
    equal elements (a nil slice and an empty one differ); pointers are equal
    when both are nil or the values they point to are equal; structs are
    equal when they have the same type and every field is equal or ignored.
    [ignore typ field] tells which fields of which struct type the options
    ignore.  A [Time] is the instant, which is what [Equal] of [time.Time]
    compares. *)
Fixpoint cmp_Equal (ignore : string → string → bool) (x y : GoValue) {struct x} : bool :=
  match x, y with
  | GoString a, GoString b => bool_decide (a = b)
  | GoInt a, GoInt b => bool_decide (a = b)
  | GoByte a, GoByte b => bool_decide (a = b)
  | GoTime a, GoTime b => bool_decide (a = b)
  | GoCertAuthType a, GoCertAuthType b => bool_decide (a = b)
  | GoNil, GoNil => true
  | GoSlice xs, GoSlice ys => all2 (cmp_Equal ignore) xs ys
  | GoPtr a, GoPtr b => cmp_Equal ignore a b
  | GoStruct n fs, GoStruct m gs =>
      bool_decide (n = m) &&
      all2 (λ f g,
              match f, g with
              | (fname, v), (gname, w) =>
                  bool_decide (fname = gname) && (ignore n fname || cmp_Equal ignore v w)
              end) fs gs
  | _, _ => false
  end.

(** [cmpopts.IgnoreFields(typ{}, names...)] *)
Definition IgnoreFields (typ : string) (names : list string) : string → string → bool :=
  λ t f, bool_decide (t = typ ∧ f ∈ names).

(** ** Certificate authorities as Go objects

    The records of the data model above hold sequences; a Go object also
    knows which of its empty slices are nil.  The records below keep that,
    and [model] forgets it. *)

(** A Go slice: [None] is the nil slice, [Some l] a slice that is not nil. *)
Definition slice (A : Type) : Type := option (list A).
(** Its elements: none for the nil slice. *)
Definition elems {A} (s : slice A) : list A := default [] s.

Module GoTLSKeyPair.
Record t : Type := mk { Cert : slice byte; Key : slice byte }.
Definition model (p : t) : TLSKeyPair.t :=
  {| TLSKeyPair.Cert := elems (Cert p); TLSKeyPair.Key := elems (Key p) |}.
End GoTLSKeyPair.

Module GoJWTKeyPair.
Record t : Type := mk { PublicKey : slice byte; PrivateKey : slice byte }.
Definition model (p : t) : JWTKeyPair.t :=
  {| JWTKeyPair.PublicKey := elems (PublicKey p);
     JWTKeyPair.PrivateKey := elems (PrivateKey p) |}.
End GoJWTKeyPair.

Module GoRoleMapping.
Record t : Type := mk { Remote : string; Local : slice string }.
Definition model (m : t) : RoleMapping.t :=
  {| RoleMapping.Remote := Remote m; RoleMapping.Local := elems (Local m) |}.
End GoRoleMapping.

Module GoCertAuthoritySpecV2.
Record t : Type := mk {
  Type_ : CertAuthType;
  ClusterName : string;
  SigningKeys : slice (slice byte);
  CheckingKeys : slice (slice byte);
  TLSKeyPairs : slice GoTLSKeyPair.t;
  JWTKeyPairs : slice GoJWTKeyPair.t;
  Roles : slice string;
  RoleMap : slice GoRoleMapping.t;
  SigningAlg : Z;
}.
Definition model (s : t) : CertAuthoritySpecV2.t :=
  {| CertAuthoritySpecV2.Type_ := Type_ s;
     CertAuthoritySpecV2.ClusterName := ClusterName s;
     CertAuthoritySpecV2.SigningKeys := elems <$> elems (SigningKeys s);
     CertAuthoritySpecV2.CheckingKeys := elems <$> elems (CheckingKeys s);
     CertAuthoritySpecV2.TLSKeyPairs := GoTLSKeyPair.model <$> elems (TLSKeyPairs s);
     CertAuthoritySpecV2.JWTKeyPairs := GoJWTKeyPair.model <$> elems (JWTKeyPairs s);
     CertAuthoritySpecV2.Roles := elems (Roles s);
     CertAuthoritySpecV2.RoleMap := GoRoleMapping.model <$> elems (RoleMap s);
     CertAuthoritySpecV2.SigningAlg := SigningAlg s |}.
End GoCertAuthoritySpecV2.

Module GoCertAuthorityV2.
Record t : Type := mk {
  Kind : string;
  Version : string;
  Metadata : Metadata.t;
  Spec : GoCertAuthoritySpecV2.t;
}.
Definition model (ca : t) : CertAuthorityV2.t :=
  {| CertAuthorityV2.Kind := Kind ca;
     CertAuthorityV2.Version := Version ca;
     CertAuthorityV2.Metadata := Metadata ca;
     CertAuthorityV2.Spec := GoCertAuthoritySpecV2.model (Spec ca) |}.
Definition SetResourceID (id : Z) (ca : t) : t :=
  {| Kind := Kind ca; Version := Version ca;
     Metadata := Metadata.SetResourceID id (Metadata ca); Spec := Spec ca |}.
End GoCertAuthorityV2.

(** *** What [cmp.Equal] is handed

    The value tree of each Go struct, over the fields of the data model. *)

Definition reflect_slice {A} (r : A → GoValue) (s : slice A) : GoValue :=
  match s with
  | None => GoNil
  | Some l => GoSlice (r <$> l)
  end.

Definition reflect_bytes : slice byte → GoValue := reflect_slice GoByte.
Definition reflect_strings : slice string → GoValue := reflect_slice GoString.

Definition reflect_TLSKeyPair (p : GoTLSKeyPair.t) : GoValue :=
  GoStruct "types.TLSKeyPair"
    [("Cert", reflect_bytes (GoTLSKeyPair.Cert p));
     ("Key", reflect_bytes (GoTLSKeyPair.Key p))].

Definition reflect_JWTKeyPair (p : GoJWTKeyPair.t) : GoValue :=
  GoStruct "types.JWTKeyPair"
    [("PublicKey", reflect_bytes (GoJWTKeyPair.PublicKey p));
     ("PrivateKey", reflect_bytes (GoJWTKeyPair.PrivateKey p))].

Definition reflect_RoleMapping (m : GoRoleMapping.t) : GoValue :=
  GoStruct "types.RoleMapping"
    [("Remote", GoString (GoRoleMapping.Remote m));
     ("Local", reflect_strings (GoRoleMapping.Local m))].

Definition reflect_Metadata (m : Metadata.t) : GoValue :=
  GoStruct "types.Metadata"
    [("Name", GoString (Metadata.Name m));
     ("Expires", match Metadata.Expires m with
                 | None => GoNil
                 | Some t => GoPtr (GoTime t)
                 end);
     ("ID", GoInt (Metadata.ID m))].

Definition reflect_Spec (s : GoCertAuthoritySpecV2.t) : GoValue :=
  GoStruct "types.CertAuthoritySpecV2"
    [("Type", GoCertAuthType (GoCertAuthoritySpecV2.Type_ s));
     ("ClusterName", GoString (GoCertAuthoritySpecV2.ClusterName s));
     ("CheckingKeys", reflect_slice reflect_bytes (GoCertAuthoritySpecV2.CheckingKeys s));
     ("SigningKeys", reflect_slice reflect_bytes (GoCertAuthoritySpecV2.SigningKeys s));
     ("Roles", reflect_strings (GoCertAuthoritySpecV2.Roles s));
     ("RoleMap", reflect_slice reflect_RoleMapping (GoCertAuthoritySpecV2.RoleMap s));
     ("TLSKeyPairs", reflect_slice reflect_TLSKeyPair (GoCertAuthoritySpecV2.TLSKeyPairs s));
     ("SigningAlg", GoInt (GoCertAuthoritySpecV2.SigningAlg s));
     ("JWTKeyPairs", reflect_slice reflect_JWTKeyPair (GoCertAuthoritySpecV2.JWTKeyPairs s))].

(** The interface value holds a pointer to the struct. *)
Definition reflect_CertAuthority (ca : GoCertAuthorityV2.t) : GoValue :=
  GoPtr (GoStruct "types.CertAuthorityV2"
           [("Kind", GoString (GoCertAuthorityV2.Kind ca));
            ("Version", GoString (GoCertAuthorityV2.Version ca));
            ("Metadata", reflect_Metadata (GoCertAuthorityV2.Metadata ca));
            ("Spec", reflect_Spec (GoCertAuthorityV2.Spec ca))]).

(** [cmpopts.IgnoreFields(types.Metadata{}, "ID")] *)
Definition ignoreID : string → string → bool := IgnoreFields "types.Metadata" ["ID"].

(** [CertAuthoritiesEquivalent]: the deep comparison of the two objects with
    the [ID] field of every [types.Metadata] ignored. *)
Definition CertAuthoritiesEquivalent (lhs rhs : GoCertAuthorityV2.t) : bool :=
  cmp_Equal ignoreID (reflect_CertAuthority lhs) (reflect_CertAuthority rhs).

(** ** Marshal options *)

(** Modelled from the spec: [MarshalConfig], [MarshalOption] and
    [CollectOptions] live in lib/services/resource.go, which is not one of the
    two files embedded here.
    The recognised options are a resource ID to stamp, an expiry to stamp,
    and the request to keep the resource ID on marshal.  An option is a
    function that updates the configuration in place and may fail;
    [CollectOptions] runs the options in order on a zero configuration and
    stops at the first failure. *)
Module MarshalConfig.
Record t : Type := mk {
  ID : Z;
  PreserveResourceID : bool;
  Expires : Time;
}.
Definition zero : t := {| ID := 0; PreserveResourceID := false; Expires := 0 |}.
End MarshalConfig.

(** Modelled from the spec: [MarshalOption] (lib/services/resource.go), a
    function that updates the configuration and may fail. *)
Definition MarshalOption : Type :=
  MarshalConfig.t → MarshalConfig.t * option error.

(** Modelled from the spec: the loop of [CollectOptions]
    (lib/services/resource.go). *)
Fixpoint CollectOptions_from (cfg : MarshalConfig.t) (opts : list MarshalOption)
  : result MarshalConfig.t :=
  match opts with
  | [] => Ok cfg
  | o :: rest =>
      match o cfg with
      | (_, Some err) => Err err
      | (cfg', None) => CollectOptions_from cfg' rest
      end
  end.

(** Modelled from the spec: [CollectOptions] (lib/services/resource.go),
    starting from the zero configuration. *)
Definition CollectOptions (opts : list MarshalOption) : result MarshalConfig.t :=
  CollectOptions_from MarshalConfig.zero opts.

(** Modelled from the spec: the option [WithResourceID]
    (lib/services/resource.go): stamp this ID onto the decoded object. *)
Definition WithResourceID (id : Z) : MarshalOption := λ c,
  ({| MarshalConfig.ID := id;
      MarshalConfig.PreserveResourceID := MarshalConfig.PreserveResourceID c;
      MarshalConfig.Expires := MarshalConfig.Expires c |}, None).

(** Modelled from the spec: the option [WithExpires]
    (lib/services/resource.go): stamp this expiry. *)
Definition WithExpires (expires : Time) : MarshalOption := λ c,
  ({| MarshalConfig.ID := MarshalConfig.ID c;
      MarshalConfig.PreserveResourceID := MarshalConfig.PreserveResourceID c;
      MarshalConfig.Expires := expires |}, None).

(** Modelled from the spec: the option [PreserveResourceID]
    (lib/services/resource.go): on marshal, keep the object's ID. *)
Definition PreserveResourceID : MarshalOption := λ c,
  ({| MarshalConfig.ID := MarshalConfig.ID c;
      MarshalConfig.PreserveResourceID := true;
      MarshalConfig.Expires := MarshalConfig.Expires c |}, None).

(** ** Certificate request parameters *)

(** [UserCertParams].  [time.Duration] is a signed count of nanoseconds;
    [wrappers.Traits] maps a trait name to its values; [RequestIDs] wraps a
    list of request identifiers. *)
Module UserCertParams.
Record t : Type := mk {
  PrivateCASigningKey : bytes;
  CASigningAlg : string;
  PublicUserKey : bytes;
  TTL : Z;
  Username : string;
  Impersonator : string;
  AllowedLogins : list string;
  PermitX11Forwarding : bool;
  PermitAgentForwarding : bool;
  PermitPortForwarding : bool;
  Roles : list string;
  CertificateFormat : string;
  RouteToCluster : string;
  Traits : gmap string (list string);
  ActiveRequests : list string;
  MFAVerified : string;
  ClientIP : string;
}.

(** [c.TTL = ttl] *)
Definition SetTTL (ttl : Z) (c : t) : t :=
  {| PrivateCASigningKey := PrivateCASigningKey c;
     CASigningAlg := CASigningAlg c;
     PublicUserKey := PublicUserKey c;
     TTL := ttl;
     Username := Username c;
     Impersonator := Impersonator c;
     AllowedLogins := AllowedLogins c;
     PermitX11Forwarding := PermitX11Forwarding c;
     PermitAgentForwarding := PermitAgentForwarding c;
     PermitPortForwarding := PermitPortForwarding c;
     Roles := Roles c;
     CertificateFormat := CertificateFormat c;
     RouteToCluster := RouteToCluster c;
     Traits := Traits c;
     ActiveRequests := ActiveRequests c;
     MFAVerified := MFAVerified c;
     ClientIP := ClientIP c |}.
End UserCertParams.

(** ** Collaborators *)

(** [jwt.Config], over the handle types of the key parsers and the clock.
    The three handles are interface values or pointers in Go and may be
    [nil]. *)
Module jwt.
Record Config (Clock Signer PublicKey : Type) : Type := mkConfig {
  Clock_ : option Clock;
  Algorithm : string;
  ClusterName : string;
  PrivateKey : option Signer;
  PublicKey_ : option PublicKey;
}.
Arguments mkConfig {Clock Signer PublicKey}.
Arguments Clock_ {Clock Signer PublicKey}.
Arguments Algorithm {Clock Signer PublicKey}.
Arguments ClusterName {Clock Signer PublicKey}.
Arguments PrivateKey {Clock Signer PublicKey}.
Arguments PublicKey_ {Clock Signer PublicKey}.
End jwt.

(** What the two files call in other packages.  Handle types are abstract;
    parsers and constructors return a handle or an error; the resources'
    [CheckAndSetDefaults] methods have pointer receivers, so they return the
    object they leave behind next to their error. *)
Class Collaborators : Type := {
  crypto_Signer : Type;
  crypto_PublicKey : Type;
  x509_Certificate : Type;
  x509_Certificate_eq_dec :: EqDecision x509_Certificate;
  ssh_PublicKey : Type;
  ssh_Signer : Type;
  jwt_Key : Type;
  clockwork_Clock : Type;
  (** [types.V2] *)
  V2 : string;
  (** [defaults.ApplicationTokenAlgorithm] *)
  ApplicationTokenAlgorithm : string;
  (** [defaults.MinCertDuration] *)
  MinCertDuration : Z;
  (** [fmt.Sprintf], with the arguments already turned into text *)
  Sprintf : string → list string → string;
  (** [utils.ParsePrivateKey], [utils.ParsePublicKey] *)
  ParsePrivateKey : bytes → result crypto_Signer;
  ParsePublicKey : bytes → result crypto_PublicKey;
  (** [tlsca.ParseCertificatePEM] *)
  ParseCertificatePEM : bytes → result x509_Certificate;
  (** [jwt.New] *)
  jwt_New : jwt.Config clockwork_Clock crypto_Signer crypto_PublicKey → result jwt_Key;
  (** [sshutils.GetCheckers], [sshutils.GetSigners] *)
  GetCheckers : CertAuthorityV2.t → result (list ssh_PublicKey);
  GetSigners : CertAuthorityV2.t → result (list ssh_Signer);
  (** [CheckAndSetDefaults] of [CertAuthorityV2] *)
  CertAuthority_CheckAndSetDefaults : CertAuthorityV2.t → CertAuthorityV2.t * option error;
  (** [CheckAndSetDefaults] of [ClusterNameV2] *)
  ClusterName_CheckAndSetDefaults : ClusterNameV2.t → ClusterNameV2.t * option error;
  (** [utils.FastUnmarshal] into a zero value of each of the three types *)
  FastUnmarshal_ResourceHeader : bytes → result ResourceHeader.t;
  FastUnmarshal_CertAuthorityV2 : bytes → result CertAuthorityV2.t;
  FastUnmarshal_ClusterNameV2 : bytes → result ClusterNameV2.t;
  (** [utils.FastMarshal] *)
  FastMarshal_CertAuthorityV2 : CertAuthorityV2.t → result bytes;
  FastMarshal_ClusterNameV2 : ClusterNameV2.t → result bytes;
}.

(** ** Objects behind pointers *)

(** Addresses, and a store of objects of one type.  A value of interface type
    [types.CertAuthority] (or [types.ClusterName]) is a pointer to a V2
    object, or a value of some other implementation, of which only the name
    of its type matters here. *)
Definition loc := positive.

Inductive CertAuthority : Type :=
| CertAuthorityV2_ptr (p : loc)
| CertAuthority_other (typeName : string).

Inductive ClusterName : Type :=
| ClusterNameV2_ptr (p : loc)
| ClusterName_other (typeName : string).

(** ** The code *)

Section Services.
Context `{Collaborators}.

(** [trace.BadParameter(format, args...)] *)
Definition trace_BadParameter (format : string) (args : list string) : error :=
  BadParameter (Sprintf format args).

(** *** Role maps *)

(** Modelled from the spec: [parseRoleMap] is defined elsewhere in
    lib/services.  Each rule must have a non-empty match pattern and a non-empty
    list of target roles; the parsed representation maps each pattern to its
    roles; the first offending rule, in order, decides the error. *)
Fixpoint parseRoleMap_from (directMatch : gmap string (list string)) (r : RoleMap)
  : result (gmap string (list string)) :=
  match r with
  | [] => Ok directMatch
  | roleMap :: rest =>
      if decide (RoleMapping.Remote roleMap = "") then
        Err (trace_BadParameter "missing 'remote' parameter for role_map" [])
      else if decide (length (RoleMapping.Local roleMap) = 0%nat) then
        Err (trace_BadParameter "missing 'local' parameter for 'remote' %v in role_map"
               [RoleMapping.Remote roleMap])
      else
        parseRoleMap_from
          (<[RoleMapping.Remote roleMap := RoleMapping.Local roleMap]> directMatch) rest
  end.

(** Modelled from the spec: [parseRoleMap], the role-map validator, starting
    from an empty parsed representation. *)
Definition parseRoleMap (r : RoleMap) : result (gmap string (list string)) :=
  parseRoleMap_from ∅ r.

(** *** Validation *)

Definition checkUserOrHostCA (ca : CertAuthorityV2.t) : option error :=
  if decide (length (GetCheckingKeys ca) = 0%nat) then
    Some (trace_BadParameter "certificate authority missing SSH public keys" [])
  else if decide (length (GetTLSKeyPairs ca) = 0%nat) then
    Some (trace_BadParameter "certificate authority missing TLS key pairs" [])
  else
    match GetCheckers ca with
    | Err err => Wrap (Some err)
    | Ok _ =>
        match GetSigners ca with
        | Err err => Wrap (Some err)
        | Ok _ =>
            if decide (length (GetRoles ca) ≠ 0%nat ∧ length (GetRoleMap ca) ≠ 0%nat) then
              Some (trace_BadParameter "should set either 'roles' or 'role_map', not both" [])
            else
              match parseRoleMap (GetRoleMap ca) with
              | Err err => Wrap (Some err)
              | Ok _ => Wrap None
              end
        end
    end.

(** The loop of [checkJWTKeys].  [privateKey] is declared before the loop, so
    a pair with an empty private key is checked with the key parsed for an
    earlier pair, if there was one. *)
Fixpoint checkJWTKeys_loop (ca : CertAuthorityV2.t) (privateKey : option crypto_Signer)
    (pairs : list JWTKeyPair.t) : option error :=
  match pairs with
  | [] => None
  | pair_ :: rest =>
      let parsed :=
        if decide (0 < length (JWTKeyPair.PrivateKey pair_))%nat then
          match ParsePrivateKey (JWTKeyPair.PrivateKey pair_) with
          | Err err => Err err
          | Ok key => Ok (Some key)
          end
        else Ok privateKey in
      match parsed with
      | Err err => Wrap (Some err)
      | Ok privateKey =>
          match ParsePublicKey (JWTKeyPair.PublicKey pair_) with
          | Err err => Wrap (Some err)
          | Ok publicKey =>
              let cfg :=
                {| jwt.Clock_ := None;
                   jwt.Algorithm := ApplicationTokenAlgorithm;
                   jwt.ClusterName := GetClusterName ca;
                   jwt.PrivateKey := privateKey;
                   jwt.PublicKey_ := Some publicKey |} in
              match jwt_New cfg with
              | Err err => Wrap (Some err)
              | Ok _ => checkJWTKeys_loop ca privateKey rest
              end
          end
      end
  end.

Definition checkJWTKeys (ca : CertAuthorityV2.t) : option error :=
  if decide (length (GetJWTKeyPairs ca) = 0%nat) then
    Some (trace_BadParameter "missing JWT CA" [])
  else checkJWTKeys_loop ca None (GetJWTKeyPairs ca).

(** [ValidateCertAuthority]: the CA is defaulted in place first, and the
    checks read the defaulted object. *)
Definition ValidateCertAuthority (ca : CertAuthorityV2.t)
  : CertAuthorityV2.t * option error :=
  match CertAuthority_CheckAndSetDefaults ca with
  | (ca, Some err) => (ca, Wrap (Some err))
  | (ca, None) =>
      match GetType ca with
      | UserCA | HostCA => (ca, Wrap (checkUserOrHostCA ca))
      | JWTSigner => (ca, Wrap (checkJWTKeys ca))
      | OtherCertAuthType name =>
          (ca, Some (trace_BadParameter "invalid CA type %q" [name]))
      end
  end.

(** *** JWT signer *)

Definition GetJWTSigner (ca : CertAuthorityV2.t) (clock : clockwork_Clock)
  : result jwt_Key :=
  match GetJWTKeyPairs ca with
  | [] => Err (trace_BadParameter "no JWT keypairs found" [])
  | first :: _ =>
      match ParsePrivateKey (JWTKeyPair.PrivateKey first) with
      | Err err => Err err
      | Ok privateKey =>
          match jwt_New {| jwt.Clock_ := Some clock;
                           jwt.Algorithm := ApplicationTokenAlgorithm;
                           jwt.ClusterName := GetClusterName ca;
                           jwt.PrivateKey := Some privateKey;
                           jwt.PublicKey_ := None |} with
          | Err err => Err err
          | Ok key => Ok key
          end
      end
  end.

(** *** User certificate parameters *)

Definition UserCertParams_CheckAndSetDefaults (c : UserCertParams.t)
  : UserCertParams.t * option error :=
  if decide (length (UserCertParams.PrivateCASigningKey c) = 0%nat
             ∨ UserCertParams.CASigningAlg c = "") then
    (c, Some (trace_BadParameter "PrivateCASigningKey and CASigningAlg are required" []))
  else
    let c :=
      if decide (UserCertParams.TTL c < MinCertDuration)
      then UserCertParams.SetTTL MinCertDuration c else c in
    if decide (length (UserCertParams.AllowedLogins c) = 0%nat) then
      (c, Some (trace_BadParameter "AllowedLogins are required" []))
    else (c, None).

(** *** Certificate pools *)

(** [x509.CertPool]: the certificates added so far, in order; adding a
    certificate that is already in the pool changes nothing. *)
Definition CertPool_t : Type := list x509_Certificate.
Definition NewCertPool : CertPool_t := [].
Definition AddCert (s : CertPool_t) (cert : x509_Certificate) : CertPool_t :=
  if decide (cert ∈ s) then s else (s ++ [cert])%list.

(** The loop over the key pairs of one CA, which the two pool builders have
    in the same words. *)
Fixpoint addKeyPairs (certPool : CertPool_t) (keyPairs : list TLSKeyPair.t)
  : result CertPool_t :=
  match keyPairs with
  | [] => Ok certPool
  | keyPair :: rest =>
      match ParseCertificatePEM (TLSKeyPair.Cert keyPair) with
      | Err err => Err err
      | Ok cert => addKeyPairs (AddCert certPool cert) rest
      end
  end.

Fixpoint CertPoolFromCertAuthorities_loop (certPool : CertPool_t)
    (cas : list CertAuthorityV2.t) : result CertPool_t :=
  match cas with
  | [] => Ok certPool
  | ca :: rest =>
      let keyPairs := GetTLSKeyPairs ca in
      if decide (length keyPairs = 0%nat) then
        CertPoolFromCertAuthorities_loop certPool rest
      else
        match addKeyPairs certPool keyPairs with
        | Err err => Err err
        | Ok certPool => CertPoolFromCertAuthorities_loop certPool rest
        end
  end.

Definition CertPoolFromCertAuthorities (cas : list CertAuthorityV2.t)
  : result CertPool_t :=
  CertPoolFromCertAuthorities_loop NewCertPool cas.

Definition CertPool (ca : CertAuthorityV2.t) : result CertPool_t :=
  let keyPairs := GetTLSKeyPairs ca in
  if decide (length keyPairs = 0%nat) then
    Err (trace_BadParameter "certificate authority has no TLS certificates" [])
  else addKeyPairs NewCertPool keyPairs.

(** *** Codec: certificate authorities *)

Definition UnmarshalCertAuthority (bytes_ : bytes) (opts : list MarshalOption)
  : result CertAuthorityV2.t :=
  match CollectOptions opts with
  | Err err => Err err
  | Ok cfg =>
      match FastUnmarshal_ResourceHeader bytes_ with
      | Err err => Err err
      | Ok h =>
          if decide (ResourceHeader.Version h = V2) then
            match FastUnmarshal_CertAuthorityV2 bytes_ with
            | Err err => Err (trace_BadParameter (Error err) [])
            | Ok ca =>
                match ValidateCertAuthority ca with
                | (_, Some err) => Err err
                | (ca, None) =>
                    let ca :=
                      if decide (MarshalConfig.ID cfg ≠ 0)
                      then SetResourceID (MarshalConfig.ID cfg) ca else ca in
                    Ok ca
                end
            end
          else
            Err (trace_BadParameter "cert authority resource version %v is not supported"
                   [ResourceHeader.Version h])
      end
  end.

(** [MarshalCertAuthority] on a store: [None] is the run-time panic of
    dereferencing a pointer that holds no object.  Without
    [PreserveResourceID] the object is copied to a fresh address, the copy's
    resource ID is zeroed, and the copy is what gets serialised. *)
Definition MarshalCertAuthority (certAuthority : CertAuthority)
    (opts : list MarshalOption) (σ : gmap loc CertAuthorityV2.t)
  : option (gmap loc CertAuthorityV2.t * result bytes) :=
  match CollectOptions opts with
  | Err err => Some (σ, Err err)
  | Ok cfg =>
      match certAuthority with
      | CertAuthorityV2_ptr p =>
          ca ← σ !! p;
          let version := GetVersion ca in
          if decide (version ≠ V2) then
            Some (σ, Err (trace_BadParameter
                            "mismatched certificate authority version %v and type %T"
                            [version; "*types.CertAuthorityV2"]))
          else if negb (MarshalConfig.PreserveResourceID cfg) then
            let q := fresh (dom σ) in
            let σ := <[q := ca]> σ in
            let σ := alter (SetResourceID 0) q σ in
            copy ← σ !! q;
            Some (σ, FastMarshal_CertAuthorityV2 copy)
          else Some (σ, FastMarshal_CertAuthorityV2 ca)
      | CertAuthority_other typeName =>
          Some (σ, Err (trace_BadParameter
                          "unrecognized certificate authority version %T" [typeName]))
      end
  end.

(** *** Codec: cluster names *)

Definition UnmarshalClusterName (bytes_ : bytes) (opts : list MarshalOption)
  : result ClusterNameV2.t :=
  if decide (length bytes_ = 0%nat) then
    Err (trace_BadParameter "missing resource data" [])
  else
    match CollectOptions opts with
    | Err err => Err err
    | Ok cfg =>
        match FastUnmarshal_ClusterNameV2 bytes_ with
        | Err err => Err (trace_BadParameter (Error err) [])
        | Ok clusterName =>
            match ClusterName_CheckAndSetDefaults clusterName with
            | (_, Some err) => Err err
            | (clusterName, None) =>
                let clusterName :=
                  if decide (MarshalConfig.ID cfg ≠ 0)
                  then ClusterNameV2.SetResourceID (MarshalConfig.ID cfg) clusterName
                  else clusterName in
                let clusterName :=
                  if negb (IsZero (MarshalConfig.Expires cfg))
                  then ClusterNameV2.SetExpiry (MarshalConfig.Expires cfg) clusterName
                  else clusterName in
                Ok clusterName
            end
        end
    end.

Definition MarshalClusterName (clusterName : ClusterName)
    (opts : list MarshalOption) (σ : gmap loc ClusterNameV2.t)
  : option (gmap loc ClusterNameV2.t * result bytes) :=
  match CollectOptions opts with
  | Err err => Some (σ, Err err)
  | Ok cfg =>
      match clusterName with
      | ClusterNameV2_ptr p =>
          cn ← σ !! p;
          let version := ClusterNameV2.GetVersion cn in
          if decide (version ≠ V2) then
            Some (σ, Err (trace_BadParameter
                            "mismatched cluster name version %v and type %T"
                            [version; "*types.ClusterNameV2"]))
          else if negb (MarshalConfig.PreserveResourceID cfg) then
            let q := fresh (dom σ) in
            let σ := <[q := cn]> σ in
            let σ := alter (ClusterNameV2.SetResourceID 0) q σ in
            copy ← σ !! q;
            Some (σ, FastMarshal_ClusterNameV2 copy)
          else Some (σ, FastMarshal_ClusterNameV2 cn)
      | ClusterName_other typeName =>
          Some (σ, Err (trace_BadParameter
                          "unrecognized cluster name version %T" [typeName]))
      end
  end.

End Services.

(** ** Notions used in the statements *)

Section Notions.
Context `{Collaborators}.

(** The CA as its own [CheckAndSetDefaults] leaves it: this is the object
    the checks of [ValidateCertAuthority] read. *)
Definition defaulted (ca : CertAuthorityV2.t) : CertAuthorityV2.t :=
  (CertAuthority_CheckAndSetDefaults ca).1.

Definition self_check_passes (ca : CertAuthorityV2.t) : Prop :=
  (CertAuthority_CheckAndSetDefaults ca).2 = None.

(** The key-material checks of a host or user CA all pass. *)
Definition key_material_ok (ca : CertAuthorityV2.t) : Prop :=
  GetCheckingKeys ca ≠ [] ∧ GetTLSKeyPairs ca ≠ [] ∧
  is_Ok (GetCheckers ca) ∧ is_Ok (GetSigners ca).

(** A validated CA: validation accepts it and finds nothing left to
    default. *)
Definition validated (ca : CertAuthorityV2.t) : Prop :=
  ValidateCertAuthority ca = (ca, None).

(** The part of the CA's self-check that the codec relies on: a CA it
    accepts has the one recognised version. *)
Definition self_check_recognises_version : Prop :=
  ∀ ca ca',
    CertAuthority_CheckAndSetDefaults ca = (ca', None) → GetVersion ca' = V2.

(** The contract of the JSON codec on certificate authorities: what was
    serialised decodes to the same object, and its header to the same
    header. *)
Definition codec_roundtrip : Prop :=
  ∀ ca b,
    FastMarshal_CertAuthorityV2 ca = Ok b →
    FastUnmarshal_ResourceHeader b = Ok (CertAuthority_header ca) ∧
    FastUnmarshal_CertAuthorityV2 b = Ok ca.

(** The same for cluster names. *)
Definition codec_roundtrip_cn : Prop :=
  ∀ c b,
    FastMarshal_ClusterNameV2 c = Ok b →
    FastUnmarshal_ClusterNameV2 b = Ok c.

(** The configuration [GetJWTSigner] hands to [jwt.New]. *)
Definition signer_config (ca : CertAuthorityV2.t) (clock : clockwork_Clock)
    (privateKey : crypto_Signer)
  : jwt.Config clockwork_Clock crypto_Signer crypto_PublicKey :=
  {| jwt.Clock_ := Some clock;
     jwt.Algorithm := ApplicationTokenAlgorithm;
     jwt.ClusterName := GetClusterName ca;
     jwt.PrivateKey := Some privateKey;
     jwt.PublicKey_ := None |}.

End Notions.


Section NotionsOfValidation.
Context `{Collaborators}.



End NotionsOfValidation.

(** ** The rest of authority.go *)

(** [HostCertParams].  [types.SystemRoles] is a list of role names. *)
Module HostCertParams.
Record t : Type := mk {
  PrivateCASigningKey : bytes;
  CASigningAlg : string;
  PublicHostKey : bytes;
  HostID : string;
  Principals : list string;
  NodeName : string;
  ClusterName : string;
  Roles : list string;
  TTL : Z;
}.
End HostCertParams.

(** Modelled from the spec: [types.CertRoles] (api/types), the small
    envelope [{version, roles}] of the role export format. *)
Module CertRoles.
Record t : Type := mk {
  Version : string;
  Roles : list string;
}.
#[global] Instance CertRoles_eq_dec : EqDecision t.
Proof. solve_decision. Defined.
End CertRoles.

(** What the remaining functions call in other packages. *)
Class MoreCollaborators : Type := {
  (** [types.V1] *)
  V1 : string;
  (** [jwt.GenerateKeyPair]: the public key, the private key, or an error *)
  jwt_GenerateKeyPair : result (bytes * bytes);
  (** [types.NewCertAuthority] *)
  types_NewCertAuthority : CertAuthoritySpecV2.t → CertAuthorityV2.t;
  (** [Check] of [types.SystemRoles] *)
  SystemRoles_Check : list string → option error;
  (** [json.Marshal] of a [types.CertRoles] *)
  json_Marshal_CertRoles : CertRoles.t → result bytes;
  (** [utils.FastUnmarshal] into a zero [types.CertRoles] *)
  FastUnmarshal_CertRoles : bytes → result CertRoles.t;
}.

Section ServicesRest.
Context `{Collaborators} `{MoreCollaborators}.

Definition NewJWTAuthority (clusterName : string) : result CertAuthorityV2.t :=
  match jwt_GenerateKeyPair with
  | Err err => Err err
  | Ok (publicKey, privateKey) =>
      let keyPair :=
        {| JWTKeyPair.PublicKey := publicKey; JWTKeyPair.PrivateKey := privateKey |} in
      Ok (types_NewCertAuthority
            {| CertAuthoritySpecV2.Type_ := JWTSigner;
               CertAuthoritySpecV2.ClusterName := clusterName;
               CertAuthoritySpecV2.SigningKeys := [];
               CertAuthoritySpecV2.CheckingKeys := [];
               CertAuthoritySpecV2.TLSKeyPairs := [];
               CertAuthoritySpecV2.JWTKeyPairs := [keyPair];
               CertAuthoritySpecV2.Roles := [];
               CertAuthoritySpecV2.RoleMap := [];
               CertAuthoritySpecV2.SigningAlg := 0 |})
  end.

Definition NewCertAuthority (caType : CertAuthType) (clusterName : string)
    (signingKeys checkingKeys : list bytes) (roles : list string) (signingAlg : Z)
  : CertAuthorityV2.t :=
  types_NewCertAuthority
    {| CertAuthoritySpecV2.Type_ := caType;
       CertAuthoritySpecV2.ClusterName := clusterName;
       CertAuthoritySpecV2.SigningKeys := signingKeys;
       CertAuthoritySpecV2.CheckingKeys := checkingKeys;
       CertAuthoritySpecV2.TLSKeyPairs := [];
       CertAuthoritySpecV2.JWTKeyPairs := [];
       CertAuthoritySpecV2.Roles := roles;
       CertAuthoritySpecV2.RoleMap := [];
       CertAuthoritySpecV2.SigningAlg := signingAlg |}.

(** The loop of [GetTLSCerts]: [out] has one slot per key pair, and slot [i]
    receives a copy of the certificate of pair [i]. *)
Fixpoint GetTLSCerts_loop (out : list bytes) (i : nat) (pairs : list TLSKeyPair.t)
  : list bytes :=
  match pairs with
  | [] => out
  | pair_ :: rest =>
      GetTLSCerts_loop (<[i := ([] ++ TLSKeyPair.Cert pair_)%list]> out) (S i) rest
  end.

Definition GetTLSCerts (ca : CertAuthorityV2.t) : list bytes :=
  let pairs := GetTLSKeyPairs ca in
  GetTLSCerts_loop (replicate (length pairs) []) 0 pairs.

(** [Check] of [HostCertParams]; the receiver is a value, nothing is
    written.  The two [%q] arguments are passed as their text, the slice as
    the text of its elements. *)
Definition HostCertParams_Check (c : HostCertParams.t) : option error :=
  if decide (length (HostCertParams.PrivateCASigningKey c) = 0%nat
             ∨ HostCertParams.CASigningAlg c = "") then
    Some (trace_BadParameter "PrivateCASigningKey and CASigningAlg are required" [])
  else if decide (HostCertParams.HostID c = ""
                  ∧ length (HostCertParams.Principals c) = 0%nat) then
    Some (trace_BadParameter "HostID [%q] or Principals [%q] are required"
            [HostCertParams.HostID c; String.concat " " (HostCertParams.Principals c)])
  else if decide (HostCertParams.ClusterName c = "") then
    Some (trace_BadParameter "ClusterName [%q] is required" [HostCertParams.ClusterName c])
  else
    match SystemRoles_Check (HostCertParams.Roles c) with
    | Some err => Wrap (Some err)
    | None => None
    end.

(** Go strings are byte sequences: [string(out)] and [[]byte(data)]. *)
Definition MarshalCertRoles (roles : list string) : result string :=
  match json_Marshal_CertRoles {| CertRoles.Version := V1; CertRoles.Roles := roles |} with
  | Err err => Err err
  | Ok out => Ok (String.string_of_list_byte out)
  end.

Definition UnmarshalCertRoles (data : string) : result (list string) :=
  match FastUnmarshal_CertRoles (String.list_byte_of_string data) with
  | Err err => Err (trace_BadParameter (Error err) [])
  | Ok certRoles => Ok (CertRoles.Roles certRoles)
  end.

(** *** Notions for the statements about these functions *)

(** The private key bytes the loop of [checkJWTKeys] last met: those of the
    last pair of the list that has a private key. *)
Definition last_private_key (pairs : list JWTKeyPair.t) : option bytes :=
  last (filter (λ b, b ≠ []) (JWTKeyPair.PrivateKey <$> pairs)).

(** The configuration [checkJWTKeys] hands to [jwt.New] for one pair. *)
Definition check_config (ca : CertAuthorityV2.t) (privateKey : option crypto_Signer)
    (publicKey : crypto_PublicKey)
  : jwt.Config clockwork_Clock crypto_Signer crypto_PublicKey :=
  {| jwt.Clock_ := None;
     jwt.Algorithm := ApplicationTokenAlgorithm;
     jwt.ClusterName := GetClusterName ca;
     jwt.PrivateKey := privateKey;
     jwt.PublicKey_ := Some publicKey |}.

(** One pair of a JWT signer is in order: its private key, if it has one,
    parses; its public key parses; and [jwt.New] accepts the configuration
    made of that public key and the private key parsed from [held], the
    latest private key bytes met so far ([start] when there were none). *)
Definition jwt_pair_in_order (ca : CertAuthorityV2.t) (start : option crypto_Signer)
    (held : option bytes) (p : JWTKeyPair.t) : Prop :=
  (JWTKeyPair.PrivateKey p ≠ [] → is_Ok (ParsePrivateKey (JWTKeyPair.PrivateKey p))) ∧
  ∃ publicKey privateKey,
    ParsePublicKey (JWTKeyPair.PublicKey p) = Ok publicKey ∧
    match held with
    | None => privateKey = start
    | Some b => ∃ k, ParsePrivateKey b = Ok k ∧ privateKey = Some k
    end ∧
    is_Ok (jwt_New (check_config ca privateKey publicKey)).

(** The contract of [types.NewCertAuthority]: the CA it builds carries the
    specification it was given. *)
Definition new_ca_keeps_spec : Prop :=
  ∀ spec, CertAuthorityV2.Spec (types_NewCertAuthority spec) = spec.

(** The CA's self-check leaves the specification alone. *)
Definition self_check_keeps_spec : Prop :=
  ∀ ca, CertAuthorityV2.Spec (defaulted ca) = CertAuthorityV2.Spec ca.

(** The contract of the JSON codec on role envelopes. *)
Definition codec_roundtrip_roles : Prop :=
  ∀ cr b, json_Marshal_CertRoles cr = Ok b → FastUnmarshal_CertRoles b = Ok cr.

End ServicesRest.

(** ** Stand-ins for the collaborators, and sample objects

    To run the code on concrete inputs the collaborators need an
    implementation.  The stand-ins below are deliberately small: a key or a
    certificate parses when it is non-empty and does not start with a zero
    byte, a signer is its configuration, the self-checks fill in the kind and
    insist on the names (and, for a CA, on the version), and the codec knows
    a handful of sample buffers. *)
Module Standin.

Definition text (s : string) : bytes := String.list_byte_of_string s.

Definition parse (what : string) (b : bytes) : result bytes :=
  match b with
  | [] => Err (OtherError ("empty " ++ what))
  | x00 :: _ => Err (OtherError ("malformed " ++ what))
  | _ => Ok b
  end.

Fixpoint parse_all (what : string) (l : list bytes) : result (list bytes) :=
  match l with
  | [] => Ok []
  | b :: rest =>
      match parse what b with
      | Err err => Err err
      | Ok k =>
          match parse_all what rest with
          | Err err => Err err
          | Ok ks => Ok (k :: ks)
          end
      end
  end.

Definition signer : Type := jwt.Config Z bytes bytes.

Definition new_signer (cfg : signer) : result signer :=
  match jwt.PrivateKey cfg, jwt.PublicKey_ cfg with
  | None, None => Err (BadParameter "public or private key is required")
  | _, _ =>
      if decide (jwt.ClusterName cfg = "")
      then Err (BadParameter "cluster name is required")
      else Ok cfg
  end.

Definition check_ca (ca : CertAuthorityV2.t) : CertAuthorityV2.t * option error :=
  let ca :=
    if decide (CertAuthorityV2.Kind ca = "") then
      {| CertAuthorityV2.Kind := "cert_authority";
         CertAuthorityV2.Version := CertAuthorityV2.Version ca;
         CertAuthorityV2.Metadata := CertAuthorityV2.Metadata ca;
         CertAuthorityV2.Spec := CertAuthorityV2.Spec ca |}
    else ca in
  if decide (Metadata.Name (CertAuthorityV2.Metadata ca) = "") then
    (ca, Some (BadParameter "missing parameter Name"))
  else if decide (GetClusterName ca = "") then
    (ca, Some (BadParameter "missing parameter ClusterName"))
  else if decide (CertAuthorityV2.Version ca ≠ "2") then
    (ca, Some (BadParameter "version is not recognized"))
  else (ca, None).

Definition check_cn (c : ClusterNameV2.t) : ClusterNameV2.t * option error :=
  let c :=
    if decide (ClusterNameV2.Kind c = "") then
      {| ClusterNameV2.Kind := "cluster_name";
         ClusterNameV2.Version := ClusterNameV2.Version c;
         ClusterNameV2.Metadata := ClusterNameV2.Metadata c;
         ClusterNameV2.Spec := ClusterNameV2.Spec c |}
    else c in
  if decide (ClusterNameV2.ClusterName (ClusterNameV2.Spec c) = "") then
    (c, Some (BadParameter "cluster name is required"))
  else (c, None).

(** *** Sample objects *)

Definition host_ca : CertAuthorityV2.t :=
  {| CertAuthorityV2.Kind := "cert_authority";
     CertAuthorityV2.Version := "2";
     CertAuthorityV2.Metadata :=
       {| Metadata.Name := "example.com"; Metadata.Expires := None; Metadata.ID := 7 |};
     CertAuthorityV2.Spec :=
       {| CertAuthoritySpecV2.Type_ := HostCA;
          CertAuthoritySpecV2.ClusterName := "example.com";
          CertAuthoritySpecV2.SigningKeys := [text "ssh-private-1"];
          CertAuthoritySpecV2.CheckingKeys := [text "ssh-public-1"];
          CertAuthoritySpecV2.TLSKeyPairs :=
            [ {| TLSKeyPair.Cert := text "cert-1"; TLSKeyPair.Key := text "key-1" |};
              {| TLSKeyPair.Cert := text "cert-2"; TLSKeyPair.Key := text "key-2" |} ];
          CertAuthoritySpecV2.JWTKeyPairs := [];
          CertAuthoritySpecV2.Roles := ["admin"];
          CertAuthoritySpecV2.RoleMap := [];
          CertAuthoritySpecV2.SigningAlg := 0 |} |}.

(** The same CA with another version in its header. *)
Definition host_ca_v99 : CertAuthorityV2.t :=
  {| CertAuthorityV2.Kind := CertAuthorityV2.Kind host_ca;
     CertAuthorityV2.Version := "99";
     CertAuthorityV2.Metadata := CertAuthorityV2.Metadata host_ca;
     CertAuthorityV2.Spec := CertAuthorityV2.Spec host_ca |}.

(** The same CA with a role map next to its roles. *)
Definition host_ca_both : CertAuthorityV2.t :=
  {| CertAuthorityV2.Kind := CertAuthorityV2.Kind host_ca;
     CertAuthorityV2.Version := CertAuthorityV2.Version host_ca;
     CertAuthorityV2.Metadata := CertAuthorityV2.Metadata host_ca;
     CertAuthorityV2.Spec :=
       {| CertAuthoritySpecV2.Type_ := HostCA;
          CertAuthoritySpecV2.ClusterName := "example.com";
          CertAuthoritySpecV2.SigningKeys := GetSigningKeys host_ca;
          CertAuthoritySpecV2.CheckingKeys := GetCheckingKeys host_ca;
          CertAuthoritySpecV2.TLSKeyPairs := GetTLSKeyPairs host_ca;
          CertAuthoritySpecV2.JWTKeyPairs := [];
          CertAuthoritySpecV2.Roles := ["admin"];
          CertAuthoritySpecV2.RoleMap :=
            [ {| RoleMapping.Remote := "remote-admin"; RoleMapping.Local := ["admin"] |} ];
          CertAuthoritySpecV2.SigningAlg := 0 |} |}.

(** A JWT signer that carries both a roles list and a role map. *)
Definition jwt_ca : CertAuthorityV2.t :=
  {| CertAuthorityV2.Kind := "cert_authority";
     CertAuthorityV2.Version := "2";
     CertAuthorityV2.Metadata :=
       {| Metadata.Name := "cluster-x"; Metadata.Expires := None; Metadata.ID := 0 |};
     CertAuthorityV2.Spec :=
       {| CertAuthoritySpecV2.Type_ := JWTSigner;
          CertAuthoritySpecV2.ClusterName := "cluster-x";
          CertAuthoritySpecV2.SigningKeys := [];
          CertAuthoritySpecV2.CheckingKeys := [];
          CertAuthoritySpecV2.TLSKeyPairs := [];
          CertAuthoritySpecV2.JWTKeyPairs :=
            [ {| JWTKeyPair.PublicKey := text "jwt-public-1";
                 JWTKeyPair.PrivateKey := text "jwt-private-1" |};
              {| JWTKeyPair.PublicKey := text "jwt-public-0";
                 JWTKeyPair.PrivateKey := [] |} ];
          CertAuthoritySpecV2.Roles := ["admin"];
          CertAuthoritySpecV2.RoleMap :=
            [ {| RoleMapping.Remote := "remote-admin"; RoleMapping.Local := ["admin"] |} ];
          CertAuthoritySpecV2.SigningAlg := 0 |} |}.

Definition cluster_name : ClusterNameV2.t :=
  {| ClusterNameV2.Kind := "cluster_name";
     ClusterNameV2.Version := "2";
     ClusterNameV2.Metadata :=
       {| Metadata.Name := "cluster-name"; Metadata.Expires := None; Metadata.ID := 5 |};
     ClusterNameV2.Spec := {| ClusterNameV2.ClusterName := "example.com" |} |}.

Definition cluster_name_v99 : ClusterNameV2.t :=
  {| ClusterNameV2.Kind := "cluster_name";
     ClusterNameV2.Version := "99";
     ClusterNameV2.Metadata := ClusterNameV2.Metadata cluster_name;
     ClusterNameV2.Spec := ClusterNameV2.Spec cluster_name |}.

Definition user_params : UserCertParams.t :=
  {| UserCertParams.PrivateCASigningKey := text "ssh-private-1";
     UserCertParams.CASigningAlg := "rsa-sha2-512";
     UserCertParams.PublicUserKey := text "user-public";
     UserCertParams.TTL := 5;
     UserCertParams.Username := "alice";
     UserCertParams.Impersonator := "";
     UserCertParams.AllowedLogins := ["root"];
     UserCertParams.PermitX11Forwarding := false;
     UserCertParams.PermitAgentForwarding := true;
     UserCertParams.PermitPortForwarding := true;
     UserCertParams.Roles := ["admin"];
     UserCertParams.CertificateFormat := "";
     UserCertParams.RouteToCluster := "";
     UserCertParams.Traits := ∅;
     UserCertParams.ActiveRequests := [];
     UserCertParams.MFAVerified := "";
     UserCertParams.ClientIP := "" |}.

(** *** A codec over sample buffers *)

Definition buf_host_ca : bytes :=
  text "{kind:cert_authority,version:2,id:7,name:example.com,type:host}".
Definition buf_host_ca_id0 : bytes :=
  text "{kind:cert_authority,version:2,id:0,name:example.com,type:host}".
Definition buf_host_ca_v99 : bytes :=
  text "{kind:cert_authority,version:99,id:7,name:example.com,type:host}".
Definition buf_cluster_name : bytes :=
  text "{kind:cluster_name,version:2,id:5,cluster_name:example.com}".
Definition buf_cluster_name_id0 : bytes :=
  text "{kind:cluster_name,version:2,id:0,cluster_name:example.com}".
Definition buf_cluster_name_v99 : bytes :=
  text "{kind:cluster_name,version:99,id:5,cluster_name:example.com}".

Definition ca_buffers : list (bytes * CertAuthorityV2.t) :=
  [ (buf_host_ca, host_ca);
    (buf_host_ca_id0, SetResourceID 0 host_ca);
    (buf_host_ca_v99, host_ca_v99) ].

Definition cn_buffers : list (bytes * ClusterNameV2.t) :=
  [ (buf_cluster_name, cluster_name);
    (buf_cluster_name_id0, ClusterNameV2.SetResourceID 0 cluster_name);
    (buf_cluster_name_v99, cluster_name_v99) ].

Fixpoint decode {A} (table : list (bytes * A)) (b : bytes) : result A :=
  match table with
  | [] => Err (OtherError "unexpected input")
  | (b', a) :: rest => if decide (b' = b) then Ok a else decode rest b
  end.

Fixpoint encode {A} `{EqDecision A} (table : list (bytes * A)) (a : A) : result bytes :=
  match table with
  | [] => Err (OtherError "value outside the sample set")
  | (b, a') :: rest => if decide (a' = a) then Ok b else encode rest a
  end.

Definition cn_header (c : ClusterNameV2.t) : ResourceHeader.t :=
  {| ResourceHeader.Kind := ClusterNameV2.Kind c;
     ResourceHeader.Version := ClusterNameV2.Version c;
     ResourceHeader.Metadata := ClusterNameV2.Metadata c |}.

Definition decode_header (b : bytes) : result ResourceHeader.t :=
  match decode ca_buffers b with
  | Ok ca => Ok (CertAuthority_header ca)
  | Err _ =>
      match decode cn_buffers b with
      | Ok c => Ok (cn_header c)
      | Err err => Err err
      end
  end.

#[local] Instance collaborators : Collaborators :=
  {| crypto_Signer := bytes;
     crypto_PublicKey := bytes;
     x509_Certificate := bytes;
     ssh_PublicKey := bytes;
     ssh_Signer := bytes;
     jwt_Key := signer;
     clockwork_Clock := Z;
     V2 := "2";
     ApplicationTokenAlgorithm := "RS256";
     MinCertDuration := 60;
     Sprintf := λ format args, String.concat " " (format :: args);
     ParsePrivateKey := parse "private key";
     ParsePublicKey := parse "public key";
     ParseCertificatePEM := parse "certificate";
     jwt_New := new_signer;
     GetCheckers := λ ca, parse_all "checking key" (GetCheckingKeys ca);
     GetSigners := λ ca, parse_all "signing key" (GetSigningKeys ca);
     CertAuthority_CheckAndSetDefaults := check_ca;
     ClusterName_CheckAndSetDefaults := check_cn;
     FastUnmarshal_ResourceHeader := decode_header;
     FastUnmarshal_CertAuthorityV2 := decode ca_buffers;
     FastUnmarshal_ClusterNameV2 := decode cn_buffers;
     FastMarshal_CertAuthorityV2 := encode ca_buffers;
     FastMarshal_ClusterNameV2 := encode cn_buffers |}.

End Standin.

(** Stand-ins for the collaborators of the remaining functions. *)
Module StandinRest.

Definition new_ca (spec : CertAuthoritySpecV2.t) : CertAuthorityV2.t :=
  {| CertAuthorityV2.Kind := "cert_authority";
     CertAuthorityV2.Version := "2";
     CertAuthorityV2.Metadata :=
       {| Metadata.Name := CertAuthoritySpecV2.ClusterName spec;
          Metadata.Expires := None; Metadata.ID := 0 |};
     CertAuthorityV2.Spec := spec |}.

Definition known_roles : list string := ["Auth"; "Node"; "Proxy"; "Admin"].

Definition check_roles (roles : list string) : option error :=
  if decide (Forall (λ r, r ∈ known_roles) roles) then None
  else Some (BadParameter "role is not registered").

Definition sample_roles : list string := ["admin"; "auditor"].

Definition buf_roles : bytes := Standin.text "{version:1,roles:[admin,auditor]}".

Definition roles_buffers : list (bytes * CertRoles.t) :=
  [ (buf_roles, {| CertRoles.Version := "1"; CertRoles.Roles := sample_roles |}) ].

Definition host_params : HostCertParams.t :=
  {| HostCertParams.PrivateCASigningKey := Standin.text "ssh-private-1";
     HostCertParams.CASigningAlg := "rsa-sha2-512";
     HostCertParams.PublicHostKey := Standin.text "host-public";
     HostCertParams.HostID := "";
     HostCertParams.Principals := ["node-1.example.com"];
     HostCertParams.NodeName := "node-1";
     HostCertParams.ClusterName := "example.com";
     HostCertParams.Roles := ["Node"];
     HostCertParams.TTL := 0 |}.


#[local] Instance more_collaborators : MoreCollaborators :=
  {| V1 := "1";
     jwt_GenerateKeyPair :=
       Ok (Standin.text "jwt-public-9", Standin.text "jwt-private-9");
     types_NewCertAuthority := new_ca;
     SystemRoles_Check := check_roles;
     json_Marshal_CertRoles := Standin.encode roles_buffers;
     FastUnmarshal_CertRoles := Standin.decode roles_buffers |}.

End StandinRest.

(** Sample CAs as Go objects. *)
Module StandinGo.

Definition bytes_of (s : string) : slice byte := Some (Standin.text s).

(** The sample host CA; the slices it never set are nil. *)
Definition host_ca : GoCertAuthorityV2.t :=
  {| GoCertAuthorityV2.Kind := "cert_authority";
     GoCertAuthorityV2.Version := "2";
     GoCertAuthorityV2.Metadata :=
       {| Metadata.Name := "example.com"; Metadata.Expires := None; Metadata.ID := 7 |};
     GoCertAuthorityV2.Spec :=
       {| GoCertAuthoritySpecV2.Type_ := HostCA;
          GoCertAuthoritySpecV2.ClusterName := "example.com";
          GoCertAuthoritySpecV2.SigningKeys := Some [bytes_of "ssh-private-1"];
          GoCertAuthoritySpecV2.CheckingKeys := Some [bytes_of "ssh-public-1"];
          GoCertAuthoritySpecV2.TLSKeyPairs :=
            Some [ {| GoTLSKeyPair.Cert := bytes_of "cert-1";
                      GoTLSKeyPair.Key := bytes_of "key-1" |};
                   {| GoTLSKeyPair.Cert := bytes_of "cert-2";
                      GoTLSKeyPair.Key := bytes_of "key-2" |} ];
          GoCertAuthoritySpecV2.JWTKeyPairs := None;
          GoCertAuthoritySpecV2.Roles := Some ["admin"];
          GoCertAuthoritySpecV2.RoleMap := None;
          GoCertAuthoritySpecV2.SigningAlg := 0 |} |}.

(** The same CA, with a role map that is empty but not nil. *)
Definition host_ca_empty_role_map : GoCertAuthorityV2.t :=
  {| GoCertAuthorityV2.Kind := GoCertAuthorityV2.Kind host_ca;
     GoCertAuthorityV2.Version := GoCertAuthorityV2.Version host_ca;
     GoCertAuthorityV2.Metadata := GoCertAuthorityV2.Metadata host_ca;
     GoCertAuthorityV2.Spec :=
       {| GoCertAuthoritySpecV2.Type_ := HostCA;
          GoCertAuthoritySpecV2.ClusterName := "example.com";
          GoCertAuthoritySpecV2.SigningKeys :=
            GoCertAuthoritySpecV2.SigningKeys (GoCertAuthorityV2.Spec host_ca);
          GoCertAuthoritySpecV2.CheckingKeys :=
            GoCertAuthoritySpecV2.CheckingKeys (GoCertAuthorityV2.Spec host_ca);
          GoCertAuthoritySpecV2.TLSKeyPairs :=
            GoCertAuthoritySpecV2.TLSKeyPairs (GoCertAuthorityV2.Spec host_ca);
          GoCertAuthoritySpecV2.JWTKeyPairs := None;
          GoCertAuthoritySpecV2.Roles := Some ["admin"];
          GoCertAuthoritySpecV2.RoleMap := Some [];
          GoCertAuthoritySpecV2.SigningAlg := 0 |} |}.

(** The same CA with another role. *)
Definition host_ca_other_role : GoCertAuthorityV2.t :=
  {| GoCertAuthorityV2.Kind := GoCertAuthorityV2.Kind host_ca;
     GoCertAuthorityV2.Version := GoCertAuthorityV2.Version host_ca;
     GoCertAuthorityV2.Metadata := GoCertAuthorityV2.Metadata host_ca;
     GoCertAuthorityV2.Spec :=
       {| GoCertAuthoritySpecV2.Type_ := HostCA;
          GoCertAuthoritySpecV2.ClusterName := "example.com";
          GoCertAuthoritySpecV2.SigningKeys :=
            GoCertAuthoritySpecV2.SigningKeys (GoCertAuthorityV2.Spec host_ca);
          GoCertAuthoritySpecV2.CheckingKeys :=
            GoCertAuthoritySpecV2.CheckingKeys (GoCertAuthorityV2.Spec host_ca);
          GoCertAuthoritySpecV2.TLSKeyPairs :=
            GoCertAuthoritySpecV2.TLSKeyPairs (GoCertAuthorityV2.Spec host_ca);
          GoCertAuthoritySpecV2.JWTKeyPairs := None;
          GoCertAuthoritySpecV2.Roles := Some ["auditor"];
          GoCertAuthoritySpecV2.RoleMap := None;
          GoCertAuthoritySpecV2.SigningAlg := 0 |} |}.

End StandinGo.

(** * Properties *)

Section Properties.
Context `{Collaborators}.

(** ** Request parameters *)

Lemma SetTTL_same (c : UserCertParams.t) :
  UserCertParams.SetTTL (UserCertParams.TTL c) c = c.
Proof. by destruct c. Qed.

(** C10.  When the signing key, the signing algorithm and the allowed logins
    are all present, [CheckAndSetDefaults] returns no error whatever the TTL
    is; the parameters it leaves behind have the TTL raised to
    [MinCertDuration] when it was below, and are the caller's parameters in
    every other field. *)
Theorem C10_user_cert_params_ttl_raised (c : UserCertParams.t) :
  UserCertParams.PrivateCASigningKey c ≠ [] →
  UserCertParams.CASigningAlg c ≠ "" →
  UserCertParams.AllowedLogins c ≠ [] →
  ∃ c',
    UserCertParams_CheckAndSetDefaults c = (c', None) ∧
    UserCertParams.TTL c' = Z.max (UserCertParams.TTL c) MinCertDuration ∧
    (UserCertParams.TTL c < MinCertDuration → UserCertParams.TTL c' = MinCertDuration) ∧
    c' = UserCertParams.SetTTL (UserCertParams.TTL c') c.
Proof.
  intros Hkey Halg Hlogins.
  unfold UserCertParams_CheckAndSetDefaults.
  destruct (decide (_ ∨ _)) as [[Hk | Ha] | _].
  - destruct (UserCertParams.PrivateCASigningKey c); done.
  - done.
  - destruct (decide (UserCertParams.TTL c < MinCertDuration)) as [Hlt | Hge].
    + exists (UserCertParams.SetTTL MinCertDuration c). simpl.
      destruct (decide (_ = 0%nat)) as [Hl | _].
      { destruct (UserCertParams.AllowedLogins c); done. }
      split_and!; [done | lia | done | done].
    + exists c.
      destruct (decide (_ = 0%nat)) as [Hl | _].
      { destruct (UserCertParams.AllowedLogins c); done. }
      split_and!; [done | lia | lia | by rewrite SetTTL_same].
Qed.

(** ** JWT signer *)

(** C7.  [GetJWTSigner] fails exactly when there is no JWT key pair, or the
    private key of the first pair does not parse, or [jwt.New] refuses the
    configuration built from it.  When it succeeds, the signer is what
    [jwt.New] built from the first pair's parsed private key, the CA's
    cluster name, the application-token algorithm and the given clock; and
    two CAs with the same cluster name and the same first private key get
    the same answer, whatever else their key pairs hold. *)
Theorem C7_GetJWTSigner (ca : CertAuthorityV2.t) (clock : clockwork_Clock) :
  (is_Err (GetJWTSigner ca clock) ↔
     GetJWTKeyPairs ca = [] ∨
     ∃ first rest,
       GetJWTKeyPairs ca = first :: rest ∧
       (is_Err (ParsePrivateKey (JWTKeyPair.PrivateKey first)) ∨
        ∃ k, ParsePrivateKey (JWTKeyPair.PrivateKey first) = Ok k ∧
             is_Err (jwt_New (signer_config ca clock k)))) ∧
  (∀ key,
     GetJWTSigner ca clock = Ok key →
     ∃ first rest k,
       GetJWTKeyPairs ca = first :: rest ∧
       ParsePrivateKey (JWTKeyPair.PrivateKey first) = Ok k ∧
       jwt_New (signer_config ca clock k) = Ok key ∧
       jwt.ClusterName (signer_config ca clock k) = GetClusterName ca ∧
       jwt.Algorithm (signer_config ca clock k) = ApplicationTokenAlgorithm ∧
       jwt.Clock_ (signer_config ca clock k) = Some clock) ∧
  (∀ ca',
     GetClusterName ca' = GetClusterName ca →
     JWTKeyPair.PrivateKey <$> head (GetJWTKeyPairs ca') =
       JWTKeyPair.PrivateKey <$> head (GetJWTKeyPairs ca) →
     GetJWTSigner ca' clock = GetJWTSigner ca clock).
Proof.
  unfold GetJWTSigner, is_Err. split_and!.
  - destruct (GetJWTKeyPairs ca) as [|first rest].
    { split; [by left | by eexists]. }
    destruct (ParsePrivateKey (JWTKeyPair.PrivateKey first)) as [k|e] eqn:Hp.
    + fold (signer_config ca clock k).
      destruct (jwt_New (signer_config ca clock k)) as [key|e] eqn:Hn.
      * split; [intros [e He]; discriminate|].
        intros [Hnil | (f & r & Heq & Hor)]; [discriminate|].
        injection Heq as <- <-.
        destruct Hor as [[e He] | (k' & Hk' & [e He])]; [congruence|].
        rewrite Hp in Hk'. injection Hk' as <-. congruence.
      * split; [|by eexists]. intros _. right. exists first, rest.
        split; [done|]. right. exists k. split; [done|]. by eexists.
    + split; [|by eexists]. intros _. right. exists first, rest.
      split; [done|]. left. by eexists.
  - intros key. destruct (GetJWTKeyPairs ca) as [|first rest]; [done|].
    destruct (ParsePrivateKey (JWTKeyPair.PrivateKey first)) as [k|e] eqn:Hp; [|done].
    fold (signer_config ca clock k).
    destruct (jwt_New (signer_config ca clock k)) as [key'|e] eqn:Hn; [|done].
    intros [= <-]. exists first, rest, k. by rewrite Hp.
  - intros ca' Hcn Hhead. rewrite Hcn.
    destruct (GetJWTKeyPairs ca') as [|f' r'], (GetJWTKeyPairs ca) as [|f r];
      simpl in Hhead; try done.
    injection Hhead as ->. done.
Qed.

(** ** Equivalence *)

Lemma SetResourceID_own (ca : CertAuthorityV2.t) :
  SetResourceID (GetResourceID ca) ca = ca.
Proof. by destruct ca as [? ? [] ?]. Qed.

Lemma SetResourceID_twice (i j : Z) (ca : CertAuthorityV2.t) :
  SetResourceID i (SetResourceID j ca) = SetResourceID i ca.
Proof. done. Qed.

Lemma Spec_SetResourceID (i : Z) (ca : CertAuthorityV2.t) :
  CertAuthorityV2.Spec (SetResourceID i ca) = CertAuthorityV2.Spec ca.
Proof. done. Qed.

(** *** The deep comparison, field by field *)

Lemma all2_fmap_eq {A} (f : GoValue → GoValue → bool) (r : A → GoValue) (l1 l2 : list A) :
  (∀ a b, f (r a) (r b) = true ↔ a = b) →
  all2 f (r <$> l1) (r <$> l2) = true ↔ l1 = l2.
Proof.
  intros Hr. revert l2. induction l1 as [|a l1 IH]; intros [|b l2]; simpl; try done.
  rewrite andb_true_iff, Hr, IH. split; [by intros [-> ->] | by intros [= -> ->]].
Qed.

Lemma cmp_reflect_slice {A} ig (r : A → GoValue) (s1 s2 : slice A) :
  (∀ a b, cmp_Equal ig (r a) (r b) = true ↔ a = b) →
  cmp_Equal ig (reflect_slice r s1) (reflect_slice r s2) = true ↔ s1 = s2.
Proof.
  intros Hr. destruct s1 as [l1|], s2 as [l2|]; simpl; try done.
  rewrite (all2_fmap_eq _ r l1 l2 Hr). split; [by intros -> | by intros [= ->]].
Qed.

Lemma cmp_GoByte ig a b : cmp_Equal ig (GoByte a) (GoByte b) = true ↔ a = b.
Proof. simpl. by rewrite bool_decide_eq_true. Qed.
Lemma cmp_GoString ig a b : cmp_Equal ig (GoString a) (GoString b) = true ↔ a = b.
Proof. simpl. by rewrite bool_decide_eq_true. Qed.

Lemma cmp_reflect_bytes ig a b : cmp_Equal ig (reflect_bytes a) (reflect_bytes b) = true ↔ a = b.
Proof. apply cmp_reflect_slice, cmp_GoByte. Qed.
Lemma cmp_reflect_strings ig a b :
  cmp_Equal ig (reflect_strings a) (reflect_strings b) = true ↔ a = b.
Proof. apply cmp_reflect_slice, cmp_GoString. Qed.

Lemma ignoreID_other (t f : string) : t ≠ "types.Metadata" → ignoreID t f = false.
Proof. intros Ht. apply bool_decide_eq_false. by intros [? _]. Qed.

Lemma bool_decide_same {A} `{EqDecision A} (a : A) : bool_decide (a = a) = true.
Proof. by apply bool_decide_eq_true. Qed.

Ltac cmp_fields :=
  cbn [cmp_Equal all2];
  rewrite ?bool_decide_same, ?ignoreID_other by done;
  rewrite ?andb_true_l, ?andb_true_r, ?orb_false_l, ?andb_true_iff.

Lemma cmp_reflect_TLSKeyPair a b :
  cmp_Equal ignoreID (reflect_TLSKeyPair a) (reflect_TLSKeyPair b) = true ↔ a = b.
Proof.
  destruct a as [c1 k1], b as [c2 k2]. unfold reflect_TLSKeyPair. cmp_fields.
  cbn [GoTLSKeyPair.Cert GoTLSKeyPair.Key]. rewrite !cmp_reflect_bytes.
  split; [by intros [-> ->] | by intros [= -> ->]].
Qed.

Lemma cmp_reflect_JWTKeyPair a b :
  cmp_Equal ignoreID (reflect_JWTKeyPair a) (reflect_JWTKeyPair b) = true ↔ a = b.
Proof.
  destruct a as [c1 k1], b as [c2 k2]. unfold reflect_JWTKeyPair. cmp_fields.
  cbn [GoJWTKeyPair.PublicKey GoJWTKeyPair.PrivateKey]. rewrite !cmp_reflect_bytes.
  split; [by intros [-> ->] | by intros [= -> ->]].
Qed.

Lemma cmp_reflect_RoleMapping a b :
  cmp_Equal ignoreID (reflect_RoleMapping a) (reflect_RoleMapping b) = true ↔ a = b.
Proof.
  destruct a as [r1 l1], b as [r2 l2]. unfold reflect_RoleMapping. cmp_fields.
  cbn [GoRoleMapping.Remote GoRoleMapping.Local].
  rewrite cmp_reflect_strings, bool_decide_eq_true.
  split; [by intros [-> ->] | by intros [= -> ->]].
Qed.

Lemma ignoreID_ID : ignoreID "types.Metadata" "ID" = true.
Proof. apply bool_decide_eq_true. split; [done|]. by left. Qed.

Lemma ignoreID_Metadata (f : string) : f ≠ "ID" → ignoreID "types.Metadata" f = false.
Proof.
  intros Hf. apply bool_decide_eq_false. intros [_ Hin].
  apply list_elem_of_singleton in Hin. done.
Qed.

Lemma cmp_reflect_Metadata a b :
  cmp_Equal ignoreID (reflect_Metadata a) (reflect_Metadata b) = true ↔
  Metadata.Name a = Metadata.Name b ∧ Metadata.Expires a = Metadata.Expires b.
Proof.
  destruct a as [n1 e1 i1], b as [n2 e2 i2]. unfold reflect_Metadata.
  cbn [cmp_Equal all2 Metadata.Name Metadata.Expires Metadata.ID].
  rewrite ?bool_decide_same, ignoreID_ID, !ignoreID_Metadata by done.
  rewrite ?andb_true_l, ?andb_true_r, ?orb_false_l, ?orb_true_l, ?andb_true_iff.
  rewrite bool_decide_eq_true.
  destruct e1 as [t1|], e2 as [t2|]; simpl; rewrite ?bool_decide_eq_true;
    split; try (by intros [-> ?]); try (by intros [-> ->]); try (by intros [-> [= ->]]).
Qed.

Lemma cmp_reflect_Spec a b :
  cmp_Equal ignoreID (reflect_Spec a) (reflect_Spec b) = true ↔ a = b.
Proof.
  destruct a, b. unfold reflect_Spec. cmp_fields.
  cbn [GoCertAuthoritySpecV2.Type_ GoCertAuthoritySpecV2.ClusterName
       GoCertAuthoritySpecV2.SigningKeys GoCertAuthoritySpecV2.CheckingKeys
       GoCertAuthoritySpecV2.TLSKeyPairs GoCertAuthoritySpecV2.JWTKeyPairs
       GoCertAuthoritySpecV2.Roles GoCertAuthoritySpecV2.RoleMap
       GoCertAuthoritySpecV2.SigningAlg].
  rewrite !bool_decide_eq_true, cmp_reflect_strings.
  rewrite !(cmp_reflect_slice ignoreID reflect_bytes) by apply cmp_reflect_bytes.
  rewrite (cmp_reflect_slice ignoreID reflect_RoleMapping) by apply cmp_reflect_RoleMapping.
  rewrite (cmp_reflect_slice ignoreID reflect_TLSKeyPair) by apply cmp_reflect_TLSKeyPair.
  rewrite (cmp_reflect_slice ignoreID reflect_JWTKeyPair) by apply cmp_reflect_JWTKeyPair.
  split.
  - by intros (-> & -> & -> & -> & -> & -> & -> & -> & ->).
  - by intros [= -> -> -> -> -> -> -> -> ->].
Qed.

Lemma CertAuthoritiesEquivalent_iff (lhs rhs : GoCertAuthorityV2.t) :
  CertAuthoritiesEquivalent lhs rhs = true ↔
  GoCertAuthorityV2.SetResourceID 0 lhs = GoCertAuthorityV2.SetResourceID 0 rhs.
Proof.
  unfold CertAuthoritiesEquivalent. fold ignoreID.
  destruct lhs as [k1 v1 m1 s1], rhs as [k2 v2 m2 s2].
  unfold reflect_CertAuthority, GoCertAuthorityV2.SetResourceID.
  cbn [cmp_Equal all2 GoCertAuthorityV2.Kind GoCertAuthorityV2.Version
       GoCertAuthorityV2.Metadata GoCertAuthorityV2.Spec].
  rewrite ?bool_decide_same, ?ignoreID_other by done.
  rewrite ?andb_true_l, ?andb_true_r, ?orb_false_l, ?andb_true_iff.
  rewrite !bool_decide_eq_true.
  fold (reflect_Metadata m1) (reflect_Metadata m2).
  rewrite cmp_reflect_Metadata, cmp_reflect_Spec.
  destruct m1 as [n1 e1 i1], m2 as [n2 e2 i2]. unfold Metadata.SetResourceID. simpl.
  split.
  - by intros (-> & -> & (-> & ->) & ->).
  - by intros [= -> -> -> -> ->].
Qed.

Lemma Go_SetResourceID_own (ca : GoCertAuthorityV2.t) :
  GoCertAuthorityV2.SetResourceID (Metadata.ID (GoCertAuthorityV2.Metadata ca)) ca = ca.
Proof. by destruct ca as [? ? [] ?]. Qed.

Lemma Go_SetResourceID_twice (i j : Z) (ca : GoCertAuthorityV2.t) :
  GoCertAuthorityV2.SetResourceID i (GoCertAuthorityV2.SetResourceID j ca) =
  GoCertAuthorityV2.SetResourceID i ca.
Proof. done. Qed.

(** Stamping a resource ID on the Go object stamps it on its model. *)
Lemma model_SetResourceID (id : Z) (ca : GoCertAuthorityV2.t) :
  GoCertAuthorityV2.model (GoCertAuthorityV2.SetResourceID id ca) =
  SetResourceID id (GoCertAuthorityV2.model ca).
Proof. done. Qed.

(** A Go object is equivalent to itself under any resource ID. *)
Lemma CertAuthoritiesEquivalent_SetResourceID (id : Z) (ca : GoCertAuthorityV2.t) :
  CertAuthoritiesEquivalent (GoCertAuthorityV2.SetResourceID id ca) ca = true.
Proof. apply CertAuthoritiesEquivalent_iff. by rewrite Go_SetResourceID_twice. Qed.

(** Equivalent Go objects hold the same data up to the resource ID. *)
Lemma CertAuthoritiesEquivalent_model (lhs rhs : GoCertAuthorityV2.t) :
  CertAuthoritiesEquivalent lhs rhs = true →
  SetResourceID 0 (GoCertAuthorityV2.model lhs) =
  SetResourceID 0 (GoCertAuthorityV2.model rhs).
Proof.
  intros Heq. apply CertAuthoritiesEquivalent_iff in Heq.
  by rewrite <- !model_SetResourceID, Heq.
Qed.

(** C9.  [CertAuthoritiesEquivalent] answers true exactly when the right
    object is the left one with its resource ID replaced, a nil slice and an
    empty slice that is not nil counting as different.  So an object is
    equivalent to itself under any resource ID; objects whose key lists,
    roles, role map or cluster name hold different data are not equivalent;
    objects whose specs differ at all, be it only in a slice that is nil in
    one and empty in the other, are not equivalent; and equivalent objects
    hold the same data up to the resource ID. *)
Theorem C9_CertAuthoritiesEquivalent (lhs rhs : GoCertAuthorityV2.t) :
  (CertAuthoritiesEquivalent lhs rhs = true ↔
     rhs = GoCertAuthorityV2.SetResourceID
             (Metadata.ID (GoCertAuthorityV2.Metadata rhs)) lhs) ∧
  (∀ id, CertAuthoritiesEquivalent lhs (GoCertAuthorityV2.SetResourceID id lhs) = true) ∧
  (GetSigningKeys (GoCertAuthorityV2.model lhs) ≠ GetSigningKeys (GoCertAuthorityV2.model rhs) ∨
   GetCheckingKeys (GoCertAuthorityV2.model lhs) ≠ GetCheckingKeys (GoCertAuthorityV2.model rhs) ∨
   GetTLSKeyPairs (GoCertAuthorityV2.model lhs) ≠ GetTLSKeyPairs (GoCertAuthorityV2.model rhs) ∨
   GetJWTKeyPairs (GoCertAuthorityV2.model lhs) ≠ GetJWTKeyPairs (GoCertAuthorityV2.model rhs) ∨
   GetRoles (GoCertAuthorityV2.model lhs) ≠ GetRoles (GoCertAuthorityV2.model rhs) ∨
   GetRoleMap (GoCertAuthorityV2.model lhs) ≠ GetRoleMap (GoCertAuthorityV2.model rhs) ∨
   GetClusterName (GoCertAuthorityV2.model lhs) ≠ GetClusterName (GoCertAuthorityV2.model rhs) →
   CertAuthoritiesEquivalent lhs rhs = false) ∧
  (GoCertAuthorityV2.Spec lhs ≠ GoCertAuthorityV2.Spec rhs →
   CertAuthoritiesEquivalent lhs rhs = false) ∧
  (CertAuthoritiesEquivalent lhs rhs = true →
   SetResourceID 0 (GoCertAuthorityV2.model lhs) =
   SetResourceID 0 (GoCertAuthorityV2.model rhs)).
Proof.
  split_and!.
  - rewrite CertAuthoritiesEquivalent_iff. split.
    + intros Heq. rewrite <- (Go_SetResourceID_twice _ 0 lhs), Heq.
      by rewrite Go_SetResourceID_twice, Go_SetResourceID_own.
    + intros ->. by rewrite !Go_SetResourceID_twice.
  - intros id. apply CertAuthoritiesEquivalent_iff. by rewrite Go_SetResourceID_twice.
  - intros Hdiff. apply not_true_is_false. intros Heq.
    apply CertAuthoritiesEquivalent_model in Heq.
    assert (CertAuthorityV2.Spec (GoCertAuthorityV2.model lhs) =
            CertAuthorityV2.Spec (GoCertAuthorityV2.model rhs)) as Hspec.
    { by rewrite <- (Spec_SetResourceID 0 (GoCertAuthorityV2.model lhs)), Heq. }
    unfold GetSigningKeys, GetCheckingKeys, GetTLSKeyPairs, GetJWTKeyPairs,
      GetRoles, GetRoleMap, GetClusterName in Hdiff.
    rewrite Hspec in Hdiff.
    destruct Hdiff as [?|[?|[?|[?|[?|[?|?]]]]]]; done.
  - intros Hdiff. apply not_true_is_false. intros Heq.
    apply CertAuthoritiesEquivalent_iff in Heq. apply Hdiff.
    by apply (f_equal GoCertAuthorityV2.Spec) in Heq.
  - apply CertAuthoritiesEquivalent_model.
Qed.

(** ** Certificate pools *)

Lemma elem_of_AddCert (s : CertPool_t) (cert c : x509_Certificate) :
  c ∈ AddCert s cert ↔ c ∈ s ∨ c = cert.
Proof.
  unfold AddCert. destruct (decide (cert ∈ s)) as [Hin | Hnin].
  - split; [by left | intros [? | ->]; done].
  - rewrite elem_of_app, list_elem_of_singleton. done.
Qed.

(** The inner loop: it either stops at the first certificate that does not
    parse, with that error, or adds the certificate of every key pair. *)
Lemma addKeyPairs_spec (keyPairs : list TLSKeyPair.t) (certPool : CertPool_t) :
  match addKeyPairs certPool keyPairs with
  | Ok certPool' =>
      (∀ kp, kp ∈ keyPairs → is_Ok (ParseCertificatePEM (TLSKeyPair.Cert kp))) ∧
      (∀ c, c ∈ certPool' ↔
            c ∈ certPool ∨
            ∃ kp, kp ∈ keyPairs ∧ ParseCertificatePEM (TLSKeyPair.Cert kp) = Ok c)
  | Err err =>
      ∃ kp, kp ∈ keyPairs ∧ ParseCertificatePEM (TLSKeyPair.Cert kp) = Err err
  end.
Proof.
  revert certPool. induction keyPairs as [|kp rest IH]; intros certPool; simpl.
  - split; [intros kp Hkp; by apply elem_of_nil in Hkp|].
    intros c. split; [by left|]. intros [? | (kp & Hkp & _)]; [done|].
    by apply elem_of_nil in Hkp.
  - destruct (ParseCertificatePEM (TLSKeyPair.Cert kp)) as [cert|err] eqn:Hparse.
    + specialize (IH (AddCert certPool cert)).
      destruct (addKeyPairs (AddCert certPool cert) rest) as [certPool'|err].
      * destruct IH as [IHok IHin]. split.
        -- intros kp' [-> | Hin]%elem_of_cons; [by eexists | by apply IHok].
        -- intros c. rewrite IHin, elem_of_AddCert. split.
           ++ intros [[? | ->] | (kp' & Hin & Hc)].
              ** by left.
              ** right. exists kp. split; [by left | done].
              ** right. exists kp'. split; [by right | done].
           ++ intros [? | (kp' & [-> | Hin]%elem_of_cons & Hc)].
              ** by left; left.
              ** left; right. congruence.
              ** right. by exists kp'.
      * destruct IH as (kp' & Hin & Herr). exists kp'. split; [by right | done].
    + exists kp. split; [by left | done].
Qed.

Lemma CertPoolFromCertAuthorities_loop_spec (cas : list CertAuthorityV2.t)
    (certPool : CertPool_t) :
  match CertPoolFromCertAuthorities_loop certPool cas with
  | Ok certPool' =>
      (∀ ca kp, ca ∈ cas → kp ∈ GetTLSKeyPairs ca →
                is_Ok (ParseCertificatePEM (TLSKeyPair.Cert kp))) ∧
      (∀ c, c ∈ certPool' ↔
            c ∈ certPool ∨
            ∃ ca kp, ca ∈ cas ∧ kp ∈ GetTLSKeyPairs ca ∧
                     ParseCertificatePEM (TLSKeyPair.Cert kp) = Ok c)
  | Err err =>
      ∃ ca kp, ca ∈ cas ∧ kp ∈ GetTLSKeyPairs ca ∧
               ParseCertificatePEM (TLSKeyPair.Cert kp) = Err err
  end.
Proof.
  revert certPool. induction cas as [|ca rest IH]; intros certPool; simpl.
  - split; [intros ca kp Hca; by apply elem_of_nil in Hca|].
    intros c. split; [by left|]. intros [? | (ca & kp & Hca & _)]; [done|].
    by apply elem_of_nil in Hca.
  - destruct (decide (length (GetTLSKeyPairs ca) = 0%nat)) as [Hzero | Hsome].
    + apply length_zero_iff_nil in Hzero.
      specialize (IH certPool).
      destruct (CertPoolFromCertAuthorities_loop certPool rest) as [certPool'|err].
      * destruct IH as [IHok IHin]. split.
        -- intros ca' kp [-> | Hin]%elem_of_cons Hkp; [|by eapply IHok].
           rewrite Hzero in Hkp. by apply elem_of_nil in Hkp.
        -- intros c. rewrite IHin. split.
           ++ intros [? | (ca' & kp & Hin & Hkp & Hc)]; [by left|].
              right. exists ca', kp. split; [by right | done].
           ++ intros [? | (ca' & kp & [-> | Hin]%elem_of_cons & Hkp & Hc)];
                [by left | |].
              ** rewrite Hzero in Hkp. by apply elem_of_nil in Hkp.
              ** right. by exists ca', kp.
      * destruct IH as (ca' & kp & Hin & Hkp & Herr).
        exists ca', kp. split; [by right | done].
    + pose proof (addKeyPairs_spec (GetTLSKeyPairs ca) certPool) as Hinner.
      destruct (addKeyPairs certPool (GetTLSKeyPairs ca)) as [certPool1|err].
      * destruct Hinner as [Hok1 Hin1]. specialize (IH certPool1).
        destruct (CertPoolFromCertAuthorities_loop certPool1 rest) as [certPool'|err].
        -- destruct IH as [IHok IHin]. split.
           ++ intros ca' kp [-> | Hin]%elem_of_cons Hkp; [by apply Hok1 | by eapply IHok].
           ++ intros c. rewrite IHin, Hin1. split.
              ** intros [[? | (kp & Hkp & Hc)] | (ca' & kp & Hin & Hkp & Hc)].
                 --- by left.
                 --- right. exists ca, kp. split; [by left | done].
                 --- right. exists ca', kp. split; [by right | done].
              ** intros [? | (ca' & kp & [-> | Hin]%elem_of_cons & Hkp & Hc)].
                 --- by left; left.
                 --- left; right. by exists kp.
                 --- right. by exists ca', kp.
        -- destruct IH as (ca' & kp & Hin & Hkp & Herr).
           exists ca', kp. split; [by right | done].
      * destruct Hinner as (kp & Hkp & Herr). exists ca, kp. split; [by left | done].
Qed.

Lemma CertPoolFromCertAuthorities_loop_skip (cas : list CertAuthorityV2.t)
    (certPool : CertPool_t) :
  CertPoolFromCertAuthorities_loop certPool cas =
  CertPoolFromCertAuthorities_loop certPool
    (filter (λ ca, GetTLSKeyPairs ca ≠ []) cas).
Proof.
  revert certPool. induction cas as [|ca rest IH]; intros certPool; [done|].
  simpl. destruct (decide (length (GetTLSKeyPairs ca) = 0%nat)) as [Hzero | Hsome].
  - rewrite filter_cons_False; [done|].
    apply length_zero_iff_nil in Hzero. by intros ?.
  - rewrite filter_cons_True.
    2: { intros Hnil. by rewrite Hnil in Hsome. }
    simpl. destruct (decide (length (GetTLSKeyPairs ca) = 0%nat)); [done|].
    destruct (addKeyPairs certPool (GetTLSKeyPairs ca)); [apply IH | done].
Qed.

(** C8.  [CertPoolFromCertAuthorities] gives the same answer with the CAs
    that have no TLS key pair removed from the list; it fails exactly when
    the certificate of some TLS key pair of some CA does not parse, and when
    it succeeds the pool holds exactly the parsed certificates of the TLS
    key pairs of the CAs.  [CertPool] on a CA without TLS key pairs
    fails. *)
Theorem C8_cert_pools (cas : list CertAuthorityV2.t) :
  CertPoolFromCertAuthorities cas =
    CertPoolFromCertAuthorities (filter (λ ca, GetTLSKeyPairs ca ≠ []) cas) ∧
  (is_Err (CertPoolFromCertAuthorities cas) ↔
     ∃ ca kp, ca ∈ cas ∧ kp ∈ GetTLSKeyPairs ca ∧
              is_Err (ParseCertificatePEM (TLSKeyPair.Cert kp))) ∧
  (∀ certPool,
     CertPoolFromCertAuthorities cas = Ok certPool →
     ∀ c, c ∈ certPool ↔
          ∃ ca kp, ca ∈ cas ∧ kp ∈ GetTLSKeyPairs ca ∧
                   ParseCertificatePEM (TLSKeyPair.Cert kp) = Ok c) ∧
  (∀ ca, GetTLSKeyPairs ca = [] →
         CertPool ca =
           Err (trace_BadParameter "certificate authority has no TLS certificates" [])).
Proof.
  unfold CertPoolFromCertAuthorities.
  pose proof (CertPoolFromCertAuthorities_loop_spec cas NewCertPool) as Hspec.
  split_and!.
  - apply CertPoolFromCertAuthorities_loop_skip.
  - destruct (CertPoolFromCertAuthorities_loop NewCertPool cas) as [certPool|err].
    + destruct Hspec as [Hok _]. split; [intros [e He]; discriminate|].
      intros (ca & kp & Hca & Hkp & [e He]).
      destruct (Hok ca kp Hca Hkp) as [c Hc]. congruence.
    + split; [|by eexists]. intros _.
      destruct Hspec as (ca & kp & Hca & Hkp & Herr).
      exists ca, kp. split_and!; [done | done | by eexists].
  - intros certPool Heq. rewrite Heq in Hspec. destruct Hspec as [_ Hin].
    intros c. rewrite Hin. split; [|by right].
    intros [Hnil | ?]; [|done]. by apply elem_of_nil in Hnil.
  - intros ca Hnil. unfold CertPool. rewrite Hnil. done.
Qed.

(** ** Validation *)

Lemma parseRoleMap_from_ok (r : RoleMap) (directMatch : gmap string (list string)) :
  is_Ok (parseRoleMap_from directMatch r) ↔
  Forall (λ m, RoleMapping.Remote m ≠ "" ∧ RoleMapping.Local m ≠ []) r.
Proof.
  revert directMatch. induction r as [|m rest IH]; intros directMatch; simpl.
  - split; [constructor | by eexists].
  - rewrite Forall_cons.
    destruct (decide (RoleMapping.Remote m = "")) as [Hremote | Hremote].
    { split; [intros [? ?]; discriminate | intros [[? _] _]; done]. }
    destruct (decide (length (RoleMapping.Local m) = 0%nat)) as [Hlocal | Hlocal].
    { apply length_zero_iff_nil in Hlocal.
      split; [intros [? ?]; discriminate | intros [[_ ?] _]; done]. }
    rewrite IH. split; [|by intros [_ ?]].
    intros Hrest. split; [|done]. split; [done|].
    intros Hnil. by rewrite Hnil in Hlocal.
Qed.

(** The role-map validator accepts exactly the maps whose rules all have a
    pattern and at least one local role; the empty map is among them. *)
Lemma parseRoleMap_ok (r : RoleMap) :
  is_Ok (parseRoleMap r) ↔
  Forall (λ m, RoleMapping.Remote m ≠ "" ∧ RoleMapping.Local m ≠ []) r.
Proof. apply parseRoleMap_from_ok. Qed.

Lemma parseRoleMap_nil : parseRoleMap [] = Ok ∅.
Proof. done. Qed.

(** [ValidateCertAuthority] always leaves the defaulted object behind, and
    its error is that of the self-check or, failing that, of the checker of
    the CA's type. *)
Lemma ValidateCertAuthority_unfold (ca : CertAuthorityV2.t) :
  ValidateCertAuthority ca =
  (defaulted ca,
   match (CertAuthority_CheckAndSetDefaults ca).2 with
   | Some err => Some err
   | None =>
       match GetType (defaulted ca) with
       | UserCA | HostCA => checkUserOrHostCA (defaulted ca)
       | JWTSigner => checkJWTKeys (defaulted ca)
       | OtherCertAuthType name => Some (trace_BadParameter "invalid CA type %q" [name])
       end
   end).
Proof.
  unfold ValidateCertAuthority, defaulted, Wrap.
  destruct (CertAuthority_CheckAndSetDefaults ca) as [ca' [err|]]; simpl; [done|].
  by destruct (GetType ca').
Qed.

Lemma length_nonzero {A} (l : list A) : length l ≠ 0%nat ↔ l ≠ [].
Proof. by rewrite length_zero_iff_nil. Qed.

(** The checks of a host or user CA, in the order in which they decide. *)
Lemma checkUserOrHostCA_cases (ca : CertAuthorityV2.t) :
  (GetCheckingKeys ca = [] →
   checkUserOrHostCA ca =
     Some (trace_BadParameter "certificate authority missing SSH public keys" [])) ∧
  (GetCheckingKeys ca ≠ [] → GetTLSKeyPairs ca = [] →
   checkUserOrHostCA ca =
     Some (trace_BadParameter "certificate authority missing TLS key pairs" [])) ∧
  (GetCheckingKeys ca ≠ [] → GetTLSKeyPairs ca ≠ [] →
   (∀ err, GetCheckers ca = Err err → checkUserOrHostCA ca = Some err) ∧
   (∀ err, is_Ok (GetCheckers ca) → GetSigners ca = Err err →
           checkUserOrHostCA ca = Some err) ∧
   (is_Ok (GetCheckers ca) → is_Ok (GetSigners ca) →
    (GetRoles ca ≠ [] → GetRoleMap ca ≠ [] →
     checkUserOrHostCA ca =
       Some (trace_BadParameter "should set either 'roles' or 'role_map', not both" [])) ∧
    (GetRoles ca = [] ∨ GetRoleMap ca = [] →
     checkUserOrHostCA ca =
       match parseRoleMap (GetRoleMap ca) with
       | Err err => Some err
       | Ok _ => None
       end))).
Proof.
  unfold checkUserOrHostCA, Wrap. split_and!.
  - intros ->. done.
  - intros Hck ->. apply length_nonzero in Hck.
    by destruct (decide (length (GetCheckingKeys ca) = 0%nat)).
  - intros Hck Htls. apply length_nonzero in Hck, Htls.
    destruct (decide (length (GetCheckingKeys ca) = 0%nat)); [done|].
    destruct (decide (length (GetTLSKeyPairs ca) = 0%nat)); [done|].
    split_and!.
    + by intros err ->.
    + intros err [? ->] ->. done.
    + intros [? ->] [? ->]. split.
      * intros Hr Hm. apply length_nonzero in Hr, Hm.
        by destruct (decide (_ ∧ _)) as [_ | []].
      * intros Hempty.
        destruct (decide (_ ∧ _)) as [[Hr Hm] | _]; [|done].
        apply length_nonzero in Hr, Hm. by destruct Hempty.
Qed.

Lemma checkJWTKeys_loop_cluster_name (ca ca' : CertAuthorityV2.t)
    (pairs : list JWTKeyPair.t) (privateKey : option crypto_Signer) :
  GetClusterName ca' = GetClusterName ca →
  checkJWTKeys_loop ca' privateKey pairs = checkJWTKeys_loop ca privateKey pairs.
Proof.
  intros Hname. revert privateKey.
  induction pairs as [|p rest IH]; intros privateKey; [done|].
  simpl. rewrite Hname.
  destruct (decide (0 < length (JWTKeyPair.PrivateKey p))%nat).
  - destruct (ParsePrivateKey _); [|done].
    destruct (ParsePublicKey _); [|done].
    destruct (jwt_New _); [apply IH | done].
  - destruct (ParsePublicKey _); [|done].
    destruct (jwt_New _); [apply IH | done].
Qed.

(** A JWT signer is checked on its key pairs and its cluster name only: the
    roles and the role map play no part. *)
Lemma checkJWTKeys_ignores_roles (ca ca' : CertAuthorityV2.t) :
  GetJWTKeyPairs ca' = GetJWTKeyPairs ca →
  GetClusterName ca' = GetClusterName ca →
  checkJWTKeys ca' = checkJWTKeys ca.
Proof.
  intros Hpairs Hname. unfold checkJWTKeys. rewrite Hpairs.
  destruct (decide _); [done|].
  by apply checkJWTKeys_loop_cluster_name.
Qed.



(** C1, for host and user CAs.  With both the roles and the role map
    non-empty, validation returns an error.  When the self-check and the
    key-material checks pass, a CA with no roles is valid exactly when the
    role-map validator accepts its role map, and a CA with no role map is
    valid. *)
Theorem C1_roles_or_role_map_host_user (ca : CertAuthorityV2.t) :
  let ca' := defaulted ca in
  GetType ca' = HostCA ∨ GetType ca' = UserCA →
  (GetRoles ca' ≠ [] → GetRoleMap ca' ≠ [] →
   ∃ err, (ValidateCertAuthority ca).2 = Some err) ∧
  (self_check_passes ca → key_material_ok ca' →
   (GetRoles ca' = [] →
    ((ValidateCertAuthority ca).2 = None ↔ is_Ok (parseRoleMap (GetRoleMap ca')))) ∧
   (GetRoleMap ca' = [] → (ValidateCertAuthority ca).2 = None)).
Proof.
  intros ca' Htype. rewrite ValidateCertAuthority_unfold. fold ca'. simpl.
  destruct (checkUserOrHostCA_cases ca') as (Hnock & Hnotls & Hrest).
  assert (match GetType ca' with
          | UserCA | HostCA => checkUserOrHostCA ca'
          | JWTSigner => checkJWTKeys ca'
          | OtherCertAuthType name => Some (trace_BadParameter "invalid CA type %q" [name])
          end = checkUserOrHostCA ca') as ->.
  { by destruct Htype as [-> | ->]. }
  split.
  - intros Hr Hm.
    destruct ((CertAuthority_CheckAndSetDefaults ca).2) as [err|]; [by eexists|].
    destruct (decide (GetCheckingKeys ca' = [])) as [Hck | Hck].
    { rewrite (Hnock Hck). by eexists. }
    destruct (decide (GetTLSKeyPairs ca' = [])) as [Htls | Htls].
    { rewrite (Hnotls Hck Htls). by eexists. }
    destruct (Hrest Hck Htls) as (Hcheckers & Hsigners & Hroles).
    destruct (GetCheckers ca') as [checkers|err] eqn:Hc.
    2: { rewrite (Hcheckers err eq_refl). by eexists. }
    destruct (GetSigners ca') as [signers|err] eqn:Hs.
    2: { rewrite (Hsigners err (ex_intro _ _ eq_refl) eq_refl). by eexists. }
    destruct (Hroles (ex_intro _ _ eq_refl) (ex_intro _ _ eq_refl)) as [Hboth _].
    rewrite (Hboth Hr Hm). by eexists.
  - unfold self_check_passes. intros -> (Hck & Htls & Hc & Hs).
    destruct (Hrest Hck Htls) as (_ & _ & Hroles).
    destruct (Hroles Hc Hs) as [_ Hone]. split.
    + intros Hr. rewrite Hone; [|by left].
      destruct (parseRoleMap (GetRoleMap ca')) as [m|err].
      * split; [by eexists | done].
      * split; [done | intros [? ?]; discriminate].
    + intros Hm. rewrite Hone; [|by right]. by rewrite Hm.
Qed.

(** ** Codec: unmarshal *)

(** C2.  [UnmarshalCertAuthority] never returns a resource for a buffer
    whose header declares a version other than [V2]: once the options are
    collected, it fails with the error that names the version.
    [UnmarshalClusterName] has no such gate: a non-empty buffer that decodes
    and passes the cluster name's self-check is returned as a resource, with
    the version the self-check left in it, whatever that version is. *)
Theorem C2_version_gate (bytes_ : bytes) (opts : list MarshalOption) :
  (∀ h,
     FastUnmarshal_ResourceHeader bytes_ = Ok h →
     ResourceHeader.Version h ≠ V2 →
     is_Err (UnmarshalCertAuthority bytes_ opts) ∧
     (is_Ok (CollectOptions opts) →
      UnmarshalCertAuthority bytes_ opts =
        Err (trace_BadParameter "cert authority resource version %v is not supported"
               [ResourceHeader.Version h]))) ∧
  (∀ c c',
     is_Ok (CollectOptions opts) →
     bytes_ ≠ [] →
     FastUnmarshal_ClusterNameV2 bytes_ = Ok c →
     ClusterName_CheckAndSetDefaults c = (c', None) →
     ∃ out,
       UnmarshalClusterName bytes_ opts = Ok out ∧
       ClusterNameV2.Version out = ClusterNameV2.Version c' ∧
       ClusterNameV2.Spec out = ClusterNameV2.Spec c').
Proof.
  split.
  - intros h Hh Hv. unfold UnmarshalCertAuthority.
    destruct (CollectOptions opts) as [cfg|err].
    + rewrite Hh. destruct (decide (ResourceHeader.Version h = V2)); [done|].
      split; [by eexists | done].
    + split; [by eexists | intros [? ?]; discriminate].
  - intros c c' [cfg Hcfg] Hne Hc Hcheck. unfold UnmarshalClusterName.
    apply length_nonzero in Hne.
    destruct (decide (length bytes_ = 0%nat)); [done|].
    rewrite Hcfg, Hc, Hcheck. eexists. split; [done|].
    by destruct (decide (MarshalConfig.ID cfg ≠ 0)),
      (negb (IsZero (MarshalConfig.Expires cfg))).
Qed.

(** C3.  What a successful unmarshal stamps on the object, once the options
    are collected.  For a CA the object returned is the validated one with
    the resource ID of the options when that is non-zero; its expiry is the
    validated object's own, whatever expiry the options carry.  For a
    cluster name both the resource ID and the expiry of the options are
    stamped when non-zero.  In both cases a failed validation is returned as
    the error, and nothing is stamped. *)
Theorem C3_unmarshal_overrides (bytes_ : bytes) (opts : list MarshalOption)
    (cfg : MarshalConfig.t) :
  CollectOptions opts = Ok cfg →
  (∀ h ca ca',
     FastUnmarshal_ResourceHeader bytes_ = Ok h →
     ResourceHeader.Version h = V2 →
     FastUnmarshal_CertAuthorityV2 bytes_ = Ok ca →
     (∀ err, ValidateCertAuthority ca = (ca', Some err) →
             UnmarshalCertAuthority bytes_ opts = Err err) ∧
     (ValidateCertAuthority ca = (ca', None) →
      ∃ out,
        UnmarshalCertAuthority bytes_ opts = Ok out ∧
        (MarshalConfig.ID cfg ≠ 0 → GetResourceID out = MarshalConfig.ID cfg) ∧
        (MarshalConfig.ID cfg = 0 → out = ca') ∧
        Expiry out = Expiry ca' ∧
        out = SetResourceID (GetResourceID out) ca')) ∧
  (∀ c c',
     bytes_ ≠ [] →
     FastUnmarshal_ClusterNameV2 bytes_ = Ok c →
     (∀ err, ClusterName_CheckAndSetDefaults c = (c', Some err) →
             UnmarshalClusterName bytes_ opts = Err err) ∧
     (ClusterName_CheckAndSetDefaults c = (c', None) →
      ∃ out,
        UnmarshalClusterName bytes_ opts = Ok out ∧
        (MarshalConfig.ID cfg ≠ 0 →
         ClusterNameV2.GetResourceID out = MarshalConfig.ID cfg) ∧
        (MarshalConfig.Expires cfg ≠ 0 →
         ClusterNameV2.Expiry out = Some (MarshalConfig.Expires cfg)) ∧
        (MarshalConfig.ID cfg = 0 → MarshalConfig.Expires cfg = 0 → out = c'))).
Proof.
  intros Hcfg. split.
  - intros h ca ca' Hh Hv Hca. unfold UnmarshalCertAuthority.
    rewrite Hcfg, Hh, Hca.
    destruct (decide (ResourceHeader.Version h = V2)); [|done].
    split; [by intros err ->|]. intros ->.
    destruct (decide (MarshalConfig.ID cfg ≠ 0)) as [Hid | Hid].
    + eexists. split; [done|]. split_and!; done.
    + eexists. split; [done|]. split_and!; [done | done | done |].
      by rewrite SetResourceID_own.
  - intros c c' Hne Hc. unfold UnmarshalClusterName.
    apply length_nonzero in Hne.
    destruct (decide (length bytes_ = 0%nat)); [done|].
    rewrite Hcfg, Hc. split; [by intros err ->|]. intros ->.
    unfold IsZero.
    destruct (decide (MarshalConfig.ID cfg ≠ 0)) as [Hid | Hid],
      (decide (MarshalConfig.Expires cfg = 0)) as [Hex | Hex].
    + rewrite (bool_decide_eq_true_2 _ Hex). simpl.
      eexists. split; [done|]. split_and!; done.
    + rewrite (bool_decide_eq_false_2 _ Hex). simpl.
      eexists. split; [done|]. split_and!; done.
    + rewrite (bool_decide_eq_true_2 _ Hex). simpl.
      eexists. split; [done|]. split_and!; done.
    + rewrite (bool_decide_eq_false_2 _ Hex). simpl.
      eexists. split; [done|]. split_and!; done.
Qed.

(** ** Codec: marshal *)

(** Marshalling never changes an object of the caller's store, with or
    without [PreserveResourceID]. *)
Lemma MarshalCertAuthority_frame (certAuthority : CertAuthority)
    (opts : list MarshalOption) (σ σ' : gmap loc CertAuthorityV2.t)
    (r : result bytes) :
  MarshalCertAuthority certAuthority opts σ = Some (σ', r) →
  ∀ l o, σ !! l = Some o → σ' !! l = Some o.
Proof.
  unfold MarshalCertAuthority.
  destruct (CollectOptions opts) as [cfg|err]; [|by intros [= <- _]].
  destruct certAuthority as [p|typeName]; [|by intros [= <- _]].
  destruct (σ !! p) as [ca|] eqn:Hp; [simpl | done].
  destruct (decide (GetVersion ca ≠ V2)); [by intros [= <- _]|].
  destruct (MarshalConfig.PreserveResourceID cfg); simpl; [by intros [= <- _]|].
  rewrite lookup_alter_eq, lookup_insert_eq. simpl. intros [= <- _] l o Hl.
  assert (fresh (dom σ) ≠ l) as Hfresh.
  { intros <-. pose proof (is_fresh (dom σ)) as Hnin.
    apply not_elem_of_dom in Hnin. congruence. }
  by rewrite lookup_alter_ne, lookup_insert_ne.
Qed.

Lemma MarshalClusterName_frame (clusterName : ClusterName)
    (opts : list MarshalOption) (σ σ' : gmap loc ClusterNameV2.t)
    (r : result bytes) :
  MarshalClusterName clusterName opts σ = Some (σ', r) →
  ∀ l o, σ !! l = Some o → σ' !! l = Some o.
Proof.
  unfold MarshalClusterName.
  destruct (CollectOptions opts) as [cfg|err]; [|by intros [= <- _]].
  destruct clusterName as [p|typeName]; [|by intros [= <- _]].
  destruct (σ !! p) as [c|] eqn:Hp; [simpl | done].
  destruct (decide (ClusterNameV2.GetVersion c ≠ V2)); [by intros [= <- _]|].
  destruct (MarshalConfig.PreserveResourceID cfg); simpl; [by intros [= <- _]|].
  rewrite lookup_alter_eq, lookup_insert_eq. simpl. intros [= <- _] l o Hl.
  assert (fresh (dom σ) ≠ l) as Hfresh.
  { intros <-. pose proof (is_fresh (dom σ)) as Hnin.
    apply not_elem_of_dom in Hnin. congruence. }
  by rewrite lookup_alter_ne, lookup_insert_ne.
Qed.

(** Without [PreserveResourceID], what is handed to the serialiser is the
    object behind the pointer with its resource ID zeroed; an object of
    another version is refused. *)
Lemma MarshalCertAuthority_result (opts : list MarshalOption) (cfg : MarshalConfig.t)
    (σ : gmap loc CertAuthorityV2.t) (p : loc) (ca : CertAuthorityV2.t) :
  CollectOptions opts = Ok cfg →
  MarshalConfig.PreserveResourceID cfg = false →
  σ !! p = Some ca →
  ∃ σ' r,
    MarshalCertAuthority (CertAuthorityV2_ptr p) opts σ = Some (σ', r) ∧
    (GetVersion ca = V2 → r = FastMarshal_CertAuthorityV2 (SetResourceID 0 ca)) ∧
    (GetVersion ca ≠ V2 → is_Err r).
Proof.
  intros Hcfg Hpres Hp. unfold MarshalCertAuthority. rewrite Hcfg, Hp. simpl.
  destruct (decide (GetVersion ca ≠ V2)) as [Hv | Hv].
  - eexists _, _. split; [done|]. split; [done | by eexists].
  - rewrite Hpres. simpl. rewrite lookup_alter_eq, lookup_insert_eq. simpl.
    eexists _, _. split; [done|]. split; done.
Qed.

Lemma MarshalClusterName_result (opts : list MarshalOption) (cfg : MarshalConfig.t)
    (σ : gmap loc ClusterNameV2.t) (p : loc) (c : ClusterNameV2.t) :
  CollectOptions opts = Ok cfg →
  MarshalConfig.PreserveResourceID cfg = false →
  σ !! p = Some c →
  ∃ σ' r,
    MarshalClusterName (ClusterNameV2_ptr p) opts σ = Some (σ', r) ∧
    (ClusterNameV2.GetVersion c = V2 →
     r = FastMarshal_ClusterNameV2 (ClusterNameV2.SetResourceID 0 c)) ∧
    (ClusterNameV2.GetVersion c ≠ V2 → is_Err r).
Proof.
  intros Hcfg Hpres Hp. unfold MarshalClusterName. rewrite Hcfg, Hp. simpl.
  destruct (decide (ClusterNameV2.GetVersion c ≠ V2)) as [Hv | Hv].
  - eexists _, _. split; [done|]. split; [done | by eexists].
  - rewrite Hpres. simpl. rewrite lookup_alter_eq, lookup_insert_eq. simpl.
    eexists _, _. split; [done|]. split; done.
Qed.

Lemma ClusterName_SetResourceID_own (c : ClusterNameV2.t) :
  ClusterNameV2.SetResourceID (ClusterNameV2.GetResourceID c)
    (ClusterNameV2.SetResourceID 0 c) = c.
Proof. by destruct c as [? ? [] ?]. Qed.

(** C5.  Marshalling a CA, or a cluster name, without [PreserveResourceID]
    leaves every object of the store as it was, the caller's object and its
    resource ID included.  Whenever bytes come out, they are the
    serialisation of the caller's object with resource ID zero and every
    other field as it is, so they do not depend on the caller's resource ID;
    and with a codec that decodes what it encoded, they decode to an object
    whose resource ID is zero. *)
Theorem C5_marshal_without_preserve (opts : list MarshalOption) (cfg : MarshalConfig.t) :
  CollectOptions opts = Ok cfg →
  MarshalConfig.PreserveResourceID cfg = false →
  (∀ (σ : gmap loc CertAuthorityV2.t) p ca,
     σ !! p = Some ca →
     ∃ σ' r,
       MarshalCertAuthority (CertAuthorityV2_ptr p) opts σ = Some (σ', r) ∧
       σ' !! p = Some ca ∧
       (∀ l o, σ !! l = Some o → σ' !! l = Some o) ∧
       (GetVersion ca = V2 → r = FastMarshal_CertAuthorityV2 (SetResourceID 0 ca)) ∧
       (∀ b, r = Ok b →
             FastMarshal_CertAuthorityV2 (SetResourceID 0 ca) = Ok b ∧
             GetResourceID (SetResourceID 0 ca) = 0 ∧
             SetResourceID (GetResourceID ca) (SetResourceID 0 ca) = ca ∧
             (codec_roundtrip →
              ∃ out, FastUnmarshal_CertAuthorityV2 b = Ok out ∧ GetResourceID out = 0))) ∧
  (∀ (σ : gmap loc ClusterNameV2.t) p c,
     σ !! p = Some c →
     ∃ σ' r,
       MarshalClusterName (ClusterNameV2_ptr p) opts σ = Some (σ', r) ∧
       σ' !! p = Some c ∧
       (∀ l o, σ !! l = Some o → σ' !! l = Some o) ∧
       (ClusterNameV2.GetVersion c = V2 →
        r = FastMarshal_ClusterNameV2 (ClusterNameV2.SetResourceID 0 c)) ∧
       (∀ b, r = Ok b →
             FastMarshal_ClusterNameV2 (ClusterNameV2.SetResourceID 0 c) = Ok b ∧
             ClusterNameV2.GetResourceID (ClusterNameV2.SetResourceID 0 c) = 0 ∧
             ClusterNameV2.SetResourceID (ClusterNameV2.GetResourceID c)
               (ClusterNameV2.SetResourceID 0 c) = c ∧
             (codec_roundtrip_cn →
              ∃ out, FastUnmarshal_ClusterNameV2 b = Ok out ∧
                     ClusterNameV2.GetResourceID out = 0))).
Proof.
  intros Hcfg Hpres. split.
  - intros σ p ca Hp.
    destruct (MarshalCertAuthority_result opts cfg σ p ca Hcfg Hpres Hp)
      as (σ' & r & Hm & Hv2 & Hother).
    pose proof (MarshalCertAuthority_frame _ _ _ _ _ Hm) as Hframe.
    exists σ', r. split_and!; [done | by apply Hframe | done | done |].
    intros b ->. destruct (decide (GetVersion ca = V2)) as [Hv | Hv].
    2: { destruct (Hother Hv) as [? ?]. discriminate. }
    specialize (Hv2 Hv). split_and!; [done | done | |].
    + by rewrite SetResourceID_twice, SetResourceID_own.
    + intros Hrt. destruct (Hrt _ _ (eq_sym Hv2)) as [_ Hdec]. by eexists.
  - intros σ p c Hp.
    destruct (MarshalClusterName_result opts cfg σ p c Hcfg Hpres Hp)
      as (σ' & r & Hm & Hv2 & Hother).
    pose proof (MarshalClusterName_frame _ _ _ _ _ Hm) as Hframe.
    exists σ', r. split_and!; [done | by apply Hframe | done | done |].
    intros b ->. destruct (decide (ClusterNameV2.GetVersion c = V2)) as [Hv | Hv].
    2: { destruct (Hother Hv) as [? ?]. discriminate. }
    specialize (Hv2 Hv). split_and!; [done | done | |].
    + apply ClusterName_SetResourceID_own.
    + intros Hrt. specialize (Hrt _ _ (eq_sym Hv2)). by eexists.
Qed.

(** C6.  Take a validated CA, a self-check that accepts the recognised
    version only, and a codec that decodes what it encoded.  Marshalling the
    CA with [PreserveResourceID] serialises the caller's object as it is and
    leaves the store alone, and unmarshalling the bytes gives back that very
    CA, resource ID included. *)
Theorem C6_roundtrip_preserving_id (σ : gmap loc CertAuthorityV2.t) (p : loc)
    (ca : CertAuthorityV2.t) :
  codec_roundtrip →
  self_check_recognises_version →
  σ !! p = Some ca →
  validated ca →
  MarshalCertAuthority (CertAuthorityV2_ptr p) [PreserveResourceID] σ =
    Some (σ, FastMarshal_CertAuthorityV2 ca) ∧
  ∀ b, FastMarshal_CertAuthorityV2 ca = Ok b →
       UnmarshalCertAuthority b [] = Ok ca ∧
       (∀ out, UnmarshalCertAuthority b [] = Ok out →
               GetResourceID out = GetResourceID ca).
Proof.
  intros Hrt Hversion Hp Hvalid.
  assert (GetVersion ca = V2) as Hv.
  { unfold validated in Hvalid. rewrite ValidateCertAuthority_unfold in Hvalid.
    unfold defaulted in Hvalid.
    destruct (CertAuthority_CheckAndSetDefaults ca) as [ca' [err|]] eqn:Hcheck;
      simpl in Hvalid; [by injection Hvalid|].
    injection Hvalid as -> _. by apply (Hversion ca ca). }
  split.
  - unfold MarshalCertAuthority. simpl. rewrite Hp. simpl.
    by destruct (decide (GetVersion ca ≠ V2)).
  - intros b Hb. destruct (Hrt _ _ Hb) as [Hh Hdec].
    assert (UnmarshalCertAuthority b [] = Ok ca) as Hun.
    { unfold UnmarshalCertAuthority. simpl. rewrite Hh, Hdec. simpl.
      fold (GetVersion ca).
      destruct (decide (GetVersion ca = V2)); [|done].
      unfold validated in Hvalid. rewrite Hvalid.
      by destruct (decide (0 ≠ 0)). }
    split; [done|]. intros out. rewrite Hun. by intros [= <-].
Qed.

End Properties.

(** * The code on sample inputs *)

Section Samples.
Import Standin.
#[local] Existing Instance Standin.collaborators.

(** The sample codec decodes what it encoded. *)
Lemma standin_codec_roundtrip : codec_roundtrip.
Proof.
  intros ca b Hb. cbn in Hb.
  repeat (case_decide; [simplify_eq; split; vm_compute; reflexivity |]).
  discriminate.
Qed.

Lemma standin_codec_roundtrip_cn : codec_roundtrip_cn.
Proof.
  intros c b Hb. cbn in Hb.
  repeat (case_decide; [simplify_eq; vm_compute; reflexivity |]).
  discriminate.
Qed.

(** The sample self-check accepts version 2 only. *)
Lemma standin_self_check_version : self_check_recognises_version.
Proof.
  intros ca ca' Hcheck. cbn in Hcheck. unfold check_ca in Hcheck.
  repeat case_decide; simplify_eq; unfold GetVersion; simpl.
  all: match goal with Hv : _ = "2" |- _ => exact Hv end.
Qed.

(** A JWT signer with both a roles list and a role map passes validation. *)
Lemma C1_counterexample_jwt_signer :
  GetType jwt_ca = JWTSigner ∧
  GetRoles jwt_ca ≠ [] ∧
  GetRoleMap jwt_ca ≠ [] ∧
  ValidateCertAuthority jwt_ca = (jwt_ca, None).
Proof. split_and!; [reflexivity | discriminate | discriminate | vm_compute; reflexivity]. Qed.

(** A host CA with both fields is refused. *)
Lemma C1_witness_host_ca_both :
  (GetType (defaulted host_ca_both) = HostCA ∧
   GetRoles (defaulted host_ca_both) ≠ [] ∧
   GetRoleMap (defaulted host_ca_both) ≠ []) ∧
  ∃ err, (ValidateCertAuthority host_ca_both).2 = Some err.
Proof.
  split.
  - split_and!; [reflexivity | discriminate | discriminate].
  - destruct (C1_roles_or_role_map_host_user host_ca_both) as [Hboth _].
    + left. reflexivity.
    + apply Hboth; discriminate.
Defined.

(** Version 99 in the header: the CA is refused, the cluster name is
    returned. *)
Lemma C2_witness_version_99 :
  (ResourceHeader.Version (CertAuthority_header host_ca_v99) ≠ V2 ∧
   ClusterNameV2.Version cluster_name_v99 ≠ V2) ∧
  UnmarshalCertAuthority buf_host_ca_v99 [] =
    Err (trace_BadParameter "cert authority resource version %v is not supported" ["99"]) ∧
  ∃ out,
    UnmarshalClusterName buf_cluster_name_v99 [] = Ok out ∧
    ClusterNameV2.Version out = "99" ∧
    ClusterNameV2.Spec out = ClusterNameV2.Spec cluster_name_v99.
Proof.
  split; [split; discriminate |].
  split.
  - destruct (C2_version_gate buf_host_ca_v99 []) as [Hca _].
    destruct (Hca (CertAuthority_header host_ca_v99)) as [_ Herr];
      [vm_compute; reflexivity | discriminate |].
    apply Herr. by eexists.
  - destruct (C2_version_gate buf_cluster_name_v99 []) as [_ Hcn].
    apply (Hcn cluster_name_v99 cluster_name_v99);
      [by eexists | discriminate | vm_compute; reflexivity | vm_compute; reflexivity].
Defined.

(** An expiry passed to the CA unmarshal is not stamped; the same options on
    a cluster name are. *)
Lemma C3_witness_expiry_option :
  (CollectOptions [WithResourceID 9; WithExpires 1000] =
     Ok {| MarshalConfig.ID := 9; MarshalConfig.PreserveResourceID := false;
           MarshalConfig.Expires := 1000 |}) ∧
  (∃ out,
     UnmarshalCertAuthority buf_host_ca [WithResourceID 9; WithExpires 1000] = Ok out ∧
     GetResourceID out = 9 ∧
     Expiry out = None) ∧
  (∃ out,
     UnmarshalClusterName buf_cluster_name [WithResourceID 9; WithExpires 1000] = Ok out ∧
     ClusterNameV2.GetResourceID out = 9 ∧
     ClusterNameV2.Expiry out = Some 1000).
Proof.
  split; [reflexivity|]. split.
  - destruct (C3_unmarshal_overrides buf_host_ca [WithResourceID 9; WithExpires 1000]
                _ eq_refl) as [Hca _].
    destruct (Hca (CertAuthority_header host_ca) host_ca host_ca) as [_ Hok];
      [vm_compute; reflexivity | reflexivity | vm_compute; reflexivity |].
    destruct Hok as (out & Hout & Hid & _ & Hexp & _); [vm_compute; reflexivity|].
    exists out. split_and!; [exact Hout | apply Hid; discriminate | exact Hexp].
  - destruct (C3_unmarshal_overrides buf_cluster_name [WithResourceID 9; WithExpires 1000]
                _ eq_refl) as [_ Hcn].
    destruct (Hcn cluster_name cluster_name) as [_ Hok];
      [discriminate | vm_compute; reflexivity |].
    destruct Hok as (out & Hout & Hid & Hexp & _); [vm_compute; reflexivity|].
    exists out. split_and!; [exact Hout | apply Hid; discriminate | apply Hexp; discriminate].
Defined.




(** Marshalling the stored host CA without options: the store keeps the CA
    with its ID 7, the bytes are those of the copy with ID 0. *)
Lemma C5_witness_host_ca :
  (CollectOptions [] = Ok MarshalConfig.zero ∧
   ({[ 1%positive := host_ca ]} : gmap loc CertAuthorityV2.t) !! 1%positive = Some host_ca ∧
   GetVersion host_ca = V2 ∧ GetResourceID host_ca = 7) ∧
  ∃ σ',
    MarshalCertAuthority (CertAuthorityV2_ptr 1%positive) [] {[ 1%positive := host_ca ]} =
      Some (σ', Ok buf_host_ca_id0) ∧
    σ' !! 1%positive = Some host_ca ∧
    ∃ out, FastUnmarshal_CertAuthorityV2 buf_host_ca_id0 = Ok out ∧ GetResourceID out = 0.
Proof.
  split; [split_and!; reflexivity |].
  destruct (C5_marshal_without_preserve [] MarshalConfig.zero eq_refl eq_refl) as [Hca _].
  destruct (Hca {[ 1%positive := host_ca ]} 1%positive host_ca)
    as (σ' & r & Hm & Hp & _ & Hv2 & Hbytes); [reflexivity |].
  rewrite Hv2 in Hm, Hbytes by reflexivity.
  exists σ'. split_and!; [exact Hm | exact Hp |].
  destruct (Hbytes buf_host_ca_id0) as (_ & _ & _ & Hdec); [reflexivity|].
  exact (Hdec standin_codec_roundtrip).
Defined.

(** Round trip of the host CA with its resource ID kept. *)
Lemma C6_witness_host_ca :
  (({[ 1%positive := host_ca ]} : gmap loc CertAuthorityV2.t) !! 1%positive = Some host_ca ∧
   validated host_ca ∧ GetVersion host_ca = V2) ∧
  MarshalCertAuthority (CertAuthorityV2_ptr 1%positive) [PreserveResourceID]
    {[ 1%positive := host_ca ]} = Some ({[ 1%positive := host_ca ]}, Ok buf_host_ca) ∧
  UnmarshalCertAuthority buf_host_ca [] = Ok host_ca.
Proof.
  assert (validated host_ca) as Hvalid by (vm_compute; reflexivity).
  split; [split_and!; [reflexivity | exact Hvalid | reflexivity] |].
  destruct (C6_roundtrip_preserving_id {[ 1%positive := host_ca ]} 1%positive host_ca)
    as [Hm Hu];
    [exact standin_codec_roundtrip | exact standin_self_check_version
    | reflexivity | exact Hvalid |].
  split; [exact Hm | apply Hu; reflexivity].
Defined.

(** The signer of the sample JWT CA. *)
Lemma C7_witness_jwt_ca :
  GetJWTSigner jwt_ca 42 =
    Ok {| jwt.Clock_ := Some 42; jwt.Algorithm := "RS256";
          jwt.ClusterName := "cluster-x";
          jwt.PrivateKey := Some (text "jwt-private-1");
          jwt.PublicKey_ := None |} ∧
  ∃ first rest k,
    GetJWTKeyPairs jwt_ca = first :: rest ∧
    ParsePrivateKey (JWTKeyPair.PrivateKey first) = Ok k ∧
    jwt.ClusterName (signer_config jwt_ca 42 k) = "cluster-x".
Proof.
  assert (GetJWTSigner jwt_ca 42 =
            Ok {| jwt.Clock_ := Some 42; jwt.Algorithm := "RS256";
                  jwt.ClusterName := "cluster-x";
                  jwt.PrivateKey := Some (text "jwt-private-1");
                  jwt.PublicKey_ := None |}) as Hrun by (vm_compute; reflexivity).
  split; [exact Hrun|].
  destruct (C7_GetJWTSigner (H:=Standin.collaborators) jwt_ca 42) as (_ & Hok & _).
  destruct (Hok _ Hrun) as (first & rest & k & Hpairs & Hparse & _ & Hname & _).
  exists first, rest, k. split_and!; [exact Hpairs | exact Hparse | exact Hname].
Defined.

(** A pool over the host CA (two TLS key pairs) and the JWT CA (none). *)
Lemma C8_witness_two_cas :
  CertPoolFromCertAuthorities [host_ca; jwt_ca] = Ok [text "cert-1"; text "cert-2"] ∧
  (∀ c, c ∈ [text "cert-1"; text "cert-2"] ↔
        ∃ ca kp, ca ∈ [host_ca; jwt_ca] ∧ kp ∈ GetTLSKeyPairs ca ∧
                 ParseCertificatePEM (TLSKeyPair.Cert kp) = Ok c) ∧
  is_Err (CertPool jwt_ca).
Proof.
  assert (CertPoolFromCertAuthorities [host_ca; jwt_ca] =
            Ok [text "cert-1"; text "cert-2"]) as Hrun by (vm_compute; reflexivity).
  destruct (C8_cert_pools [host_ca; jwt_ca]) as (_ & _ & Hin & Hsingle).
  split_and!; [exact Hrun | exact (Hin _ Hrun) |].
  eexists. apply Hsingle. reflexivity.
Defined.

(** Two host CAs that hold the same data under the same resource ID, the
    role map being nil in one and empty in the other, are not equivalent. *)
Lemma C9_counterexample_nil_and_empty_role_map :
  GoCertAuthorityV2.model StandinGo.host_ca =
    GoCertAuthorityV2.model StandinGo.host_ca_empty_role_map ∧
  GoCertAuthorityV2.model StandinGo.host_ca = host_ca ∧
  CertAuthoritiesEquivalent StandinGo.host_ca StandinGo.host_ca_empty_role_map = false.
Proof. split_and!; [reflexivity | reflexivity | vm_compute; reflexivity]. Qed.

(** The host CA is equivalent to itself under another resource ID, and not
    to the host CA with another role. *)
Lemma C9_witness_host_ca :
  GetRoles (GoCertAuthorityV2.model StandinGo.host_ca) ≠
    GetRoles (GoCertAuthorityV2.model StandinGo.host_ca_other_role) ∧
  CertAuthoritiesEquivalent StandinGo.host_ca
    (GoCertAuthorityV2.SetResourceID 0 StandinGo.host_ca) = true ∧
  CertAuthoritiesEquivalent StandinGo.host_ca StandinGo.host_ca_other_role = false ∧
  CertAuthoritiesEquivalent StandinGo.host_ca StandinGo.host_ca_empty_role_map = false.
Proof.
  split; [discriminate|]. split_and!.
  - destruct (C9_CertAuthoritiesEquivalent StandinGo.host_ca StandinGo.host_ca)
      as (_ & Hid & _).
    apply Hid.
  - destruct (C9_CertAuthoritiesEquivalent StandinGo.host_ca StandinGo.host_ca_other_role)
      as (_ & _ & Hdiff & _).
    apply Hdiff. do 4 right. left. discriminate.
  - destruct (C9_CertAuthoritiesEquivalent StandinGo.host_ca
                StandinGo.host_ca_empty_role_map) as (_ & _ & _ & Hspec & _).
    apply Hspec. discriminate.
Defined.

(** A TTL of 5 below the minimum of 60. *)
Lemma C10_witness_short_ttl :
  (UserCertParams.PrivateCASigningKey user_params ≠ [] ∧
   UserCertParams.CASigningAlg user_params ≠ "" ∧
   UserCertParams.AllowedLogins user_params ≠ [] ∧
   UserCertParams.TTL user_params < MinCertDuration) ∧
  UserCertParams_CheckAndSetDefaults user_params =
    (UserCertParams.SetTTL 60 user_params, None).
Proof.
  split; [split_and!; [discriminate | discriminate | discriminate | reflexivity] |].
  destruct (C10_user_cert_params_ttl_raised user_params) as (c' & Hrun & _ & Hmin & Hrest);
    [discriminate | discriminate | discriminate |].
  rewrite Hrun, Hrest, (Hmin eq_refl). reflexivity.
Defined.

End Samples.

(** * Further properties *)

Section MoreProperties.
Context `{Collaborators} `{MoreCollaborators}.

(** ** TLS certificates and pools *)

Lemma GetTLSCerts_loop_spec (pairs : list TLSKeyPair.t) (done_ : list bytes) :
  GetTLSCerts_loop (done_ ++ replicate (length pairs) []) (length done_) pairs =
  (done_ ++ (TLSKeyPair.Cert <$> pairs))%list.
Proof.
  revert done_. induction pairs as [|p rest IH]; intros done_; [done|].
  simpl. rewrite <- (Nat.add_0_r (length done_)) at 1.
  rewrite insert_app_r. simpl.
  specialize (IH (done_ ++ [TLSKeyPair.Cert p])%list).
  rewrite length_app in IH. simpl in IH.
  rewrite Nat.add_1_r, <- !app_assoc in IH. exact IH.
Qed.

Lemma GetTLSCerts_fmap (ca : CertAuthorityV2.t) :
  GetTLSCerts ca = TLSKeyPair.Cert <$> GetTLSKeyPairs ca.
Proof. unfold GetTLSCerts. apply (GetTLSCerts_loop_spec (GetTLSKeyPairs ca) []). Qed.

(** X1.  [GetTLSCerts] returns the certificates of the TLS key pairs, one
    per pair and in the order of the pairs. *)
Theorem X1_GetTLSCerts_in_order (ca : CertAuthorityV2.t) :
  GetTLSCerts ca = TLSKeyPair.Cert <$> GetTLSKeyPairs ca ∧
  length (GetTLSCerts ca) = length (GetTLSKeyPairs ca) ∧
  ∀ i, GetTLSCerts ca !! i = TLSKeyPair.Cert <$> (GetTLSKeyPairs ca !! i).
Proof.
  rewrite GetTLSCerts_fmap. split_and!; [done | by rewrite length_fmap |].
  intros i. by rewrite list_lookup_fmap.
Qed.

Lemma addKeyPairs_app (l1 l2 : list TLSKeyPair.t) (certPool : CertPool_t) :
  addKeyPairs certPool (l1 ++ l2) =
  match addKeyPairs certPool l1 with
  | Err err => Err err
  | Ok certPool' => addKeyPairs certPool' l2
  end.
Proof.
  revert certPool. induction l1 as [|kp rest IH]; intros certPool; [done|].
  simpl. destruct (ParseCertificatePEM (TLSKeyPair.Cert kp)); [apply IH | done].
Qed.

(** The multi-CA builder is the inner loop run over all the key pairs of
    all the CAs, in order. *)
Lemma CertPoolFromCertAuthorities_loop_flat (cas : list CertAuthorityV2.t)
    (certPool : CertPool_t) :
  CertPoolFromCertAuthorities_loop certPool cas =
  addKeyPairs certPool (concat (GetTLSKeyPairs <$> cas)).
Proof.
  revert certPool. induction cas as [|ca rest IH]; intros certPool; [done|].
  simpl. rewrite addKeyPairs_app.
  destruct (decide (length (GetTLSKeyPairs ca) = 0%nat)) as [Hzero | _].
  - apply length_zero_iff_nil in Hzero. rewrite Hzero. simpl. apply IH.
  - destruct (addKeyPairs certPool (GetTLSKeyPairs ca)); [apply IH | done].
Qed.

Lemma addKeyPairs_first_error (keyPairs : list TLSKeyPair.t) (certPool : CertPool_t)
    (err : error) :
  addKeyPairs certPool keyPairs = Err err ↔
  ∃ pre kp post,
    keyPairs = (pre ++ kp :: post)%list ∧
    Forall (λ kp, is_Ok (ParseCertificatePEM (TLSKeyPair.Cert kp))) pre ∧
    ParseCertificatePEM (TLSKeyPair.Cert kp) = Err err.
Proof.
  revert certPool. induction keyPairs as [|kp rest IH]; intros certPool; simpl.
  - split; [done|]. intros (pre & kp & post & Heq & _). by destruct pre.
  - destruct (ParseCertificatePEM (TLSKeyPair.Cert kp)) as [cert|err'] eqn:Hparse.
    + rewrite IH. split.
      * intros (pre & kp' & post & -> & Hpre & Herr).
        exists (kp :: pre), kp', post. split_and!; [done | | done].
        constructor; [by eexists | done].
      * intros (pre & kp' & post & Heq & Hpre & Herr).
        destruct pre as [|kp0 pre]; simpl in Heq; injection Heq as <- ->.
        { congruence. }
        exists pre, kp', post. split_and!; [done | | done].
        by inversion Hpre.
    + split.
      * intros [= <-]. exists [], kp, rest. split_and!; [done | constructor | done].
      * intros (pre & kp' & post & Heq & Hpre & Herr).
        destruct pre as [|kp0 pre]; simpl in Heq; injection Heq as <- ->.
        { congruence. }
        inversion Hpre as [|? ? [c Hc] _]. congruence.
Qed.

(** X2.  The error of [CertPoolFromCertAuthorities] is the parse error of
    the first certificate that does not parse, in the order of the CAs and,
    within a CA, of its TLS key pairs: every certificate before it parsed. *)
Theorem X2_pool_first_parse_error (cas : list CertAuthorityV2.t) (err : error) :
  CertPoolFromCertAuthorities cas = Err err ↔
  ∃ pre kp post,
    concat (GetTLSKeyPairs <$> cas) = (pre ++ kp :: post)%list ∧
    Forall (λ kp, is_Ok (ParseCertificatePEM (TLSKeyPair.Cert kp))) pre ∧
    ParseCertificatePEM (TLSKeyPair.Cert kp) = Err err.
Proof.
  unfold CertPoolFromCertAuthorities.
  rewrite CertPoolFromCertAuthorities_loop_flat. apply addKeyPairs_first_error.
Qed.

(** X3.  On a CA that has TLS key pairs, [CertPool] and
    [CertPoolFromCertAuthorities] on the one-element list agree, error or
    pool; on a CA without TLS key pairs the first fails where the second
    returns the empty pool.  A pool returned by [CertPool] holds exactly the
    parsed certificates of [GetTLSCerts]. *)
Theorem X3_single_and_multi_pool (ca : CertAuthorityV2.t) :
  (GetTLSKeyPairs ca ≠ [] → CertPool ca = CertPoolFromCertAuthorities [ca]) ∧
  (GetTLSKeyPairs ca = [] →
   is_Err (CertPool ca) ∧ CertPoolFromCertAuthorities [ca] = Ok NewCertPool) ∧
  (∀ certPool,
     CertPool ca = Ok certPool →
     GetTLSKeyPairs ca ≠ [] ∧
     ∀ c, c ∈ certPool ↔ ∃ b, b ∈ GetTLSCerts ca ∧ ParseCertificatePEM b = Ok c).
Proof.
  unfold CertPool, CertPoolFromCertAuthorities. simpl. split_and!.
  - intros Hsome. apply length_nonzero in Hsome.
    destruct (decide (length (GetTLSKeyPairs ca) = 0%nat)); [done|].
    by destruct (addKeyPairs NewCertPool (GetTLSKeyPairs ca)).
  - intros ->. simpl. split; [by eexists | done].
  - intros certPool.
    destruct (decide (length (GetTLSKeyPairs ca) = 0%nat)) as [|Hsome]; [done|].
    intros Hrun. split; [by apply length_nonzero|].
    pose proof (addKeyPairs_spec (GetTLSKeyPairs ca) NewCertPool) as Hspec.
    rewrite Hrun in Hspec. destruct Hspec as [_ Hin].
    intros c. rewrite Hin.
    rewrite GetTLSCerts_fmap.
    split.
    + intros [Hnil | (kp & Hkp & Hc)]; [by apply elem_of_nil in Hnil|].
      exists (TLSKeyPair.Cert kp). split; [|done].
      apply list_elem_of_fmap. by exists kp.
    + intros (b & Hb & Hc). right.
      apply list_elem_of_fmap in Hb as (kp & -> & Hkp). by exists kp.
Qed.

(** ** Equivalence *)

(** CAs that are the same up to the resource ID have the same spec. *)
Lemma Spec_up_to_resource_id (lhs rhs : CertAuthorityV2.t) :
  SetResourceID 0 lhs = SetResourceID 0 rhs →
  CertAuthorityV2.Spec lhs = CertAuthorityV2.Spec rhs.
Proof.
  intros Heq. by rewrite <- (Spec_SetResourceID 0 lhs), Heq.
Qed.

(** X4.  What is derived from a CA does not depend on its resource ID: CAs
    that are the same up to the resource ID, and so the CAs held by two
    equivalent Go objects, give the same JWT signer, the same certificate
    pool, the same TLS certificates and the same verdict on their JWT
    keys. *)
Theorem X4_equivalent_same_artifacts (lhs rhs : CertAuthorityV2.t)
    (clock : clockwork_Clock) :
  SetResourceID 0 lhs = SetResourceID 0 rhs ∨
  (∃ l r, CertAuthoritiesEquivalent l r = true ∧
          GoCertAuthorityV2.model l = lhs ∧ GoCertAuthorityV2.model r = rhs) →
  GetJWTSigner lhs clock = GetJWTSigner rhs clock ∧
  CertPool lhs = CertPool rhs ∧
  GetTLSCerts lhs = GetTLSCerts rhs ∧
  checkJWTKeys lhs = checkJWTKeys rhs.
Proof.
  intros Heq.
  assert (CertAuthorityV2.Spec lhs = CertAuthorityV2.Spec rhs) as Hspec.
  { apply Spec_up_to_resource_id.
    destruct Heq as [Heq | (l & r & Heq & <- & <-)]; [done|].
    by apply CertAuthoritiesEquivalent_model. }
  unfold GetJWTSigner, CertPool, GetTLSCerts, checkJWTKeys.
  assert (GetClusterName lhs = GetClusterName rhs) as Hname
    by (unfold GetClusterName; by rewrite Hspec).
  rewrite (checkJWTKeys_loop_cluster_name rhs lhs) by done.
  unfold GetJWTKeyPairs, GetTLSKeyPairs, GetClusterName in *.
  rewrite Hspec. done.
Qed.

(** ** Validation *)

(** X5.  A host or user CA is valid exactly when its self-check passes, it
    has a checking key and a TLS key pair, the checker and signer handles
    can be constructed, the roles and the role map are not both set, and
    the role-map validator accepts the role map. *)
Theorem X5_host_user_valid_iff (ca : CertAuthorityV2.t) :
  let ca' := defaulted ca in
  GetType ca' = HostCA ∨ GetType ca' = UserCA →
  ((ValidateCertAuthority ca).2 = None ↔
   self_check_passes ca ∧ key_material_ok ca' ∧
   (GetRoles ca' = [] ∨ GetRoleMap ca' = []) ∧
   is_Ok (parseRoleMap (GetRoleMap ca'))).
Proof.
  intros ca' Htype. rewrite ValidateCertAuthority_unfold. fold ca'. simpl.
  unfold self_check_passes, key_material_ok.
  destruct ((CertAuthority_CheckAndSetDefaults ca).2) as [err|].
  { split; [done | by intros [? _]]. }
  assert (match GetType ca' with
          | UserCA | HostCA => checkUserOrHostCA ca'
          | JWTSigner => checkJWTKeys ca'
          | OtherCertAuthType name => Some (trace_BadParameter "invalid CA type %q" [name])
          end = checkUserOrHostCA ca') as ->.
  { by destruct Htype as [-> | ->]. }
  destruct (checkUserOrHostCA_cases ca') as (Hnock & Hnotls & Hrest).
  destruct (decide (GetCheckingKeys ca' = [])) as [Hck | Hck].
  { rewrite (Hnock Hck). split; [done | by intros (_ & (? & _) & _)]. }
  destruct (decide (GetTLSKeyPairs ca' = [])) as [Htls | Htls].
  { rewrite (Hnotls Hck Htls). split; [done | by intros (_ & (_ & ? & _) & _)]. }
  destruct (Hrest Hck Htls) as (Hcheckers & Hsigners & Hroles).
  destruct (GetCheckers ca') as [checkers|err] eqn:Hc.
  2: { rewrite (Hcheckers err eq_refl).
       split; [done | intros (_ & (_ & _ & [? ?] & _) & _); discriminate]. }
  destruct (GetSigners ca') as [signers|err] eqn:Hs.
  2: { rewrite (Hsigners err (ex_intro _ _ eq_refl) eq_refl).
       split; [done | intros (_ & (_ & _ & _ & [? ?]) & _); discriminate]. }
  destruct (Hroles (ex_intro _ _ eq_refl) (ex_intro _ _ eq_refl)) as [Hboth Hone].
  destruct (decide (GetRoles ca' = [])) as [Hr | Hr].
  - rewrite Hone by (by left).
    destruct (parseRoleMap (GetRoleMap ca')) as [m|err].
    + split; [|done]. intros _.
      split_and!; [done | done | done | by eexists | by eexists | by left | by eexists].
    + split; [done | intros (_ & _ & _ & [? ?]); discriminate].
  - destruct (decide (GetRoleMap ca' = [])) as [Hm | Hm].
    + rewrite Hone by (by right).
      destruct (parseRoleMap (GetRoleMap ca')) as [m|err].
      * split; [|done]. intros _.
        split_and!; [done | done | done | by eexists | by eexists | by right | by eexists].
      * split; [done | intros (_ & _ & _ & [? ?]); discriminate].
    + rewrite (Hboth Hr Hm). split; [done|]. by intros (_ & _ & [? | ?] & _).
Qed.

Lemma last_private_key_cons (q : JWTKeyPair.t) (l : list JWTKeyPair.t) :
  last_private_key (q :: l) =
  match last_private_key l with
  | Some b => Some b
  | None =>
      if decide (0 < length (JWTKeyPair.PrivateKey q))%nat
      then Some (JWTKeyPair.PrivateKey q) else None
  end.
Proof.
  unfold last_private_key. rewrite fmap_cons.
  destruct (decide (0 < length (JWTKeyPair.PrivateKey q))%nat) as [Hlen | Hlen].
  - rewrite filter_cons_True.
    2: { intros Hnil. rewrite Hnil in Hlen. simpl in Hlen. lia. }
    by rewrite last_cons.
  - rewrite filter_cons_False.
    2: { intros Hne. apply Hne. destruct (JWTKeyPair.PrivateKey q); [done|].
         simpl in Hlen. lia. }
    by destruct (last _).
Qed.

Lemma last_private_key_nil : last_private_key [] = None.
Proof. done. Qed.

(** The loop of [checkJWTKeys], started with [start] as the key in hand,
    passes exactly when every pair is in order with respect to the private
    key bytes last met up to and including it. *)
Lemma checkJWTKeys_loop_None (ca : CertAuthorityV2.t) (pairs : list JWTKeyPair.t)
    (start : option crypto_Signer) :
  checkJWTKeys_loop ca start pairs = None ↔
  ∀ pre p post,
    pairs = (pre ++ p :: post)%list →
    jwt_pair_in_order ca start (last_private_key (pre ++ [p])) p.
Proof.
  revert start. induction pairs as [|q rest IH]; intros start.
  { split; [|done]. intros _ pre p post Heq. by destruct pre. }
  simpl. unfold Wrap.
  destruct (decide (0 < length (JWTKeyPair.PrivateKey q))%nat) as [Hlen | Hlen].
  - (* the pair has a private key *)
    assert (JWTKeyPair.PrivateKey q ≠ []) as Hne.
    { intros Hnil. rewrite Hnil in Hlen. simpl in Hlen. lia. }
    destruct (ParsePrivateKey (JWTKeyPair.PrivateKey q)) as [kq|err] eqn:Hpriv.
    2: { split; [done|]. intros Hall.
         destruct (Hall [] q rest eq_refl) as [Hp _].
         destruct (Hp Hne) as [? ?]. congruence. }
    destruct (ParsePublicKey (JWTKeyPair.PublicKey q)) as [pub|err] eqn:Hpub.
    2: { split; [done|]. intros Hall.
         destruct (Hall [] q rest eq_refl) as [_ (pub & ? & ? & _)]. congruence. }
    fold (check_config ca (Some kq) pub).
    destruct (jwt_New (check_config ca (Some kq) pub)) as [key|err] eqn:Hnew.
    2: { split; [done|]. intros Hall.
         destruct (Hall [] q rest eq_refl) as [_ (pub' & priv & Hpub' & Hheld & [? Hok])].
         simpl in Hheld. rewrite last_private_key_cons, last_private_key_nil in Hheld.
         destruct (decide (0 < length (JWTKeyPair.PrivateKey q))%nat); [|done].
         destruct Hheld as (k & Hk & ->). rewrite Hpriv in Hk. injection Hk as <-.
         rewrite Hpub in Hpub'. injection Hpub' as <-. congruence. }
    rewrite IH. split.
    + intros Hall pre p post Heq. destruct pre as [|q' pre]; simpl in Heq.
      * injection Heq as <- <-. split; [by eexists|].
        exists pub, (Some kq). split_and!; [done | | by eexists].
        simpl. rewrite last_private_key_cons, last_private_key_nil.
        destruct (decide (0 < length (JWTKeyPair.PrivateKey q))%nat); [|done].
        by exists kq.
      * injection Heq as <- ->.
        destruct (Hall pre p post eq_refl) as [Hp (pub' & priv & Hpub' & Hheld & Hok)].
        split; [done|]. exists pub', priv. split_and!; [done | | done].
        simpl. rewrite last_private_key_cons.
        destruct (last_private_key (pre ++ [p])) as [b|]; [done|].
        destruct (decide (0 < length (JWTKeyPair.PrivateKey q))%nat); [|done].
        by exists kq.
    + intros Hall pre p post ->.
      destruct (Hall (q :: pre) p post eq_refl)
        as [Hp (pub' & priv & Hpub' & Hheld & Hok)].
      split; [done|]. exists pub', priv. split_and!; [done | | done].
      simpl in Hheld. rewrite last_private_key_cons in Hheld.
      destruct (last_private_key (pre ++ [p])) as [b|]; [done|].
      destruct (decide (0 < length (JWTKeyPair.PrivateKey q))%nat); [|done].
      destruct Hheld as (k & Hk & ->). congruence.
  - (* the pair has no private key: the key in hand is kept *)
    assert (JWTKeyPair.PrivateKey q = []) as Hnil.
    { destruct (JWTKeyPair.PrivateKey q); [done|]. simpl in Hlen. lia. }
    destruct (ParsePublicKey (JWTKeyPair.PublicKey q)) as [pub|err] eqn:Hpub.
    2: { split; [done|]. intros Hall.
         destruct (Hall [] q rest eq_refl) as [_ (pub & ? & ? & _)]. congruence. }
    fold (check_config ca start pub).
    destruct (jwt_New (check_config ca start pub)) as [key|err] eqn:Hnew.
    2: { split; [done|]. intros Hall.
         destruct (Hall [] q rest eq_refl) as [_ (pub' & priv & Hpub' & Hheld & [? Hok])].
         simpl in Hheld. rewrite last_private_key_cons, last_private_key_nil in Hheld.
         destruct (decide (0 < length (JWTKeyPair.PrivateKey q))%nat); [done|].
         subst priv. rewrite Hpub in Hpub'. injection Hpub' as <-. congruence. }
    rewrite IH. split.
    + intros Hall pre p post Heq. destruct pre as [|q' pre]; simpl in Heq.
      * injection Heq as <- <-. split; [done|].
        exists pub, start. split_and!; [done | | by eexists].
        simpl. rewrite last_private_key_cons, last_private_key_nil.
        by destruct (decide (0 < length (JWTKeyPair.PrivateKey q))%nat).
      * injection Heq as <- ->.
        destruct (Hall pre p post eq_refl) as [Hp (pub' & priv & Hpub' & Hheld & Hok)].
        split; [done|]. exists pub', priv. split_and!; [done | | done].
        simpl. rewrite last_private_key_cons.
        destruct (last_private_key (pre ++ [p])) as [b|]; [done|].
        by destruct (decide (0 < length (JWTKeyPair.PrivateKey q))%nat).
    + intros Hall pre p post ->.
      destruct (Hall (q :: pre) p post eq_refl)
        as [Hp (pub' & priv & Hpub' & Hheld & Hok)].
      split; [done|]. exists pub', priv. split_and!; [done | | done].
      simpl in Hheld. rewrite last_private_key_cons in Hheld.
      destruct (last_private_key (pre ++ [p])) as [b|]; [done|].
      by destruct (decide (0 < length (JWTKeyPair.PrivateKey q))%nat).
Qed.

(** X6.  The JWT keys of a CA pass [checkJWTKeys] exactly when there is at
    least one key pair and every pair is in order: its private key, if any,
    parses, its public key parses, and [jwt.New] accepts the configuration
    made of its public key and of the private key of the latest pair, up to
    and including it, that has one (none if no pair so far has one).  So a
    pair without a private key is checked with the private key of an
    earlier pair. *)
Theorem X6_checkJWTKeys_valid_iff (ca : CertAuthorityV2.t) :
  checkJWTKeys ca = None ↔
  GetJWTKeyPairs ca ≠ [] ∧
  ∀ pre p post,
    GetJWTKeyPairs ca = (pre ++ p :: post)%list →
    jwt_pair_in_order ca None (last_private_key (pre ++ [p])) p.
Proof.
  unfold checkJWTKeys.
  destruct (decide (length (GetJWTKeyPairs ca) = 0%nat)) as [Hzero | Hsome].
  - apply length_zero_iff_nil in Hzero. split; [done | by intros [? _]].
  - rewrite checkJWTKeys_loop_None. apply length_nonzero in Hsome.
    split; [done | by intros [_ ?]].
Qed.

(** X7.  On a CA whose JWT keys pass [checkJWTKeys] and whose first key
    pair has a private key, [GetJWTSigner] gets past the parsing of that
    key: its answer is that of [jwt.New] on the signer configuration. *)
Theorem X7_signer_of_checked_keys (ca : CertAuthorityV2.t) (clock : clockwork_Clock) :
  checkJWTKeys ca = None →
  ∃ first rest,
    GetJWTKeyPairs ca = first :: rest ∧
    (JWTKeyPair.PrivateKey first ≠ [] →
     ∃ k, ParsePrivateKey (JWTKeyPair.PrivateKey first) = Ok k ∧
          GetJWTSigner ca clock = jwt_New (signer_config ca clock k)).
Proof.
  unfold checkJWTKeys, GetJWTSigner. intros Hchecked.
  destruct (GetJWTKeyPairs ca) as [|first rest]; [done|].
  simpl in Hchecked.
  pose proof (proj1 (checkJWTKeys_loop_None ca (first :: rest) None) Hchecked) as Hall.
  exists first, rest. split; [done|]. intros Hne.
  destruct (Hall [] first rest eq_refl) as [Hp _].
  destruct (Hp Hne) as [k Hk]. exists k. split; [done|].
  rewrite Hk. fold (signer_config ca clock k).
  by destruct (jwt_New (signer_config ca clock k)).
Qed.

(** ** Construction *)

(** X8.  [NewJWTAuthority] passes on the error of the key generator.  When
    a key pair is generated, and [types.NewCertAuthority] keeps the
    specification it is given, the CA is a JWT signer of the given cluster
    with exactly the generated pair, and a signer obtained from it by
    [GetJWTSigner] is built from the generated private key and bound to the
    given cluster name. *)
Theorem X8_NewJWTAuthority (clusterName : string) (clock : clockwork_Clock) :
  new_ca_keeps_spec →
  (∀ err, jwt_GenerateKeyPair = Err err → NewJWTAuthority clusterName = Err err) ∧
  (∀ publicKey privateKey,
     jwt_GenerateKeyPair = Ok (publicKey, privateKey) →
     ∃ ca,
       NewJWTAuthority clusterName = Ok ca ∧
       GetType ca = JWTSigner ∧
       GetClusterName ca = clusterName ∧
       GetJWTKeyPairs ca =
         [ {| JWTKeyPair.PublicKey := publicKey; JWTKeyPair.PrivateKey := privateKey |} ] ∧
       GetTLSKeyPairs ca = [] ∧
       ∀ key,
         GetJWTSigner ca clock = Ok key →
         ∃ k, ParsePrivateKey privateKey = Ok k ∧
              jwt_New (signer_config ca clock k) = Ok key ∧
              jwt.ClusterName (signer_config ca clock k) = clusterName).
Proof.
  intros Hkeeps. unfold NewJWTAuthority. split.
  - by intros err ->.
  - intros publicKey privateKey ->. eexists. split; [done|].
    unfold GetType, GetClusterName, GetJWTKeyPairs, GetTLSKeyPairs, GetJWTSigner,
      signer_config.
    unfold GetJWTKeyPairs, GetClusterName. rewrite !Hkeeps. simpl.
    split_and!; [done | done | done | done |].
    intros key.
    destruct (ParsePrivateKey privateKey) as [k|err]; [|done].
    destruct (jwt_New _) as [key'|err] eqn:Hnew; [|done].
    intros [= <-]. by exists k.
Qed.

(** X9.  A CA as [NewCertAuthority] returns it never passes
    [ValidateCertAuthority], whatever its arguments: the constructor sets
    neither TLS key pairs nor JWT key pairs.  (Assuming that
    [types.NewCertAuthority] keeps the specification it is given and that
    the CA's self-check leaves the specification alone.) *)
Theorem X9_NewCertAuthority_not_yet_valid (caType : CertAuthType)
    (clusterName : string) (signingKeys checkingKeys : list bytes)
    (roles : list string) (signingAlg : Z) :
  new_ca_keeps_spec →
  self_check_keeps_spec →
  ∃ err,
    (ValidateCertAuthority
       (NewCertAuthority caType clusterName signingKeys checkingKeys roles signingAlg)).2
    = Some err.
Proof.
  intros Hnew Hcheck. rewrite ValidateCertAuthority_unfold. simpl.
  destruct ((CertAuthority_CheckAndSetDefaults _).2) as [err|]; [by eexists|].
  set (ca' := defaulted _).
  assert (CertAuthorityV2.Spec ca' =
            {| CertAuthoritySpecV2.Type_ := caType;
               CertAuthoritySpecV2.ClusterName := clusterName;
               CertAuthoritySpecV2.SigningKeys := signingKeys;
               CertAuthoritySpecV2.CheckingKeys := checkingKeys;
               CertAuthoritySpecV2.TLSKeyPairs := [];
               CertAuthoritySpecV2.JWTKeyPairs := [];
               CertAuthoritySpecV2.Roles := roles;
               CertAuthoritySpecV2.RoleMap := [];
               CertAuthoritySpecV2.SigningAlg := signingAlg |}) as Hspec.
  { unfold ca'. rewrite Hcheck. unfold NewCertAuthority. by rewrite Hnew. }
  assert (checkUserOrHostCA ca' ≠ None) as Hhost.
  { destruct (checkUserOrHostCA_cases ca') as (Hnock & Hnotls & _).
    destruct (decide (GetCheckingKeys ca' = [])) as [Hck | Hck].
    - by rewrite (Hnock Hck).
    - rewrite (Hnotls Hck); [done|]. unfold GetTLSKeyPairs. by rewrite Hspec. }
  assert (checkJWTKeys ca' ≠ None) as Hjwt.
  { unfold checkJWTKeys, GetJWTKeyPairs. by rewrite Hspec. }
  unfold GetType. rewrite Hspec. simpl.
  destruct caType.
  - destruct (checkUserOrHostCA ca'); [by eexists | done].
  - destruct (checkUserOrHostCA ca'); [by eexists | done].
  - destruct (checkJWTKeys ca'); [by eexists | done].
  - by eexists.
Qed.

(** ** Request parameters *)

Lemma SetTTL_twice (a b : Z) (c : UserCertParams.t) :
  UserCertParams.SetTTL a (UserCertParams.SetTTL b c) = UserCertParams.SetTTL a c.
Proof. done. Qed.

(** X10.  [CheckAndSetDefaults] of [UserCertParams] returns no error exactly
    when the signing key, the signing algorithm and the allowed logins are
    all present.  Whatever it returns, the parameters it leaves behind are
    the caller's in every field but the TTL, which it never lowers; and when
    it returns no error the TTL is at least [MinCertDuration]. *)
Theorem X10_user_params_valid_iff (c : UserCertParams.t) :
  let c' := (UserCertParams_CheckAndSetDefaults c).1 in
  let err := (UserCertParams_CheckAndSetDefaults c).2 in
  (err = None ↔
     UserCertParams.PrivateCASigningKey c ≠ [] ∧
     UserCertParams.CASigningAlg c ≠ "" ∧
     UserCertParams.AllowedLogins c ≠ []) ∧
  c' = UserCertParams.SetTTL (UserCertParams.TTL c') c ∧
  (UserCertParams.TTL c ≤ UserCertParams.TTL c')%Z ∧
  (err = None → (MinCertDuration ≤ UserCertParams.TTL c')%Z).
Proof.
  unfold UserCertParams_CheckAndSetDefaults.
  destruct (decide (_ ∨ _)) as [Hmissing | Hpresent]; simpl.
  - split_and!; [| by rewrite SetTTL_same | lia | done].
    split; [done|]. intros (Hk & Ha & _). destruct Hmissing as [Hlen | ?]; [|done].
    by apply length_zero_iff_nil in Hlen.
  - assert (UserCertParams.PrivateCASigningKey c ≠ [] ∧
            UserCertParams.CASigningAlg c ≠ "") as [Hk Ha].
    { split; intros Heq; apply Hpresent; [left; by rewrite Heq | by right]. }
    destruct (decide (UserCertParams.TTL c < MinCertDuration)) as [Hlt | Hge]; simpl.
    + destruct (decide (length (UserCertParams.AllowedLogins c) = 0%nat)) as [Hl | Hl];
        simpl.
      * apply length_zero_iff_nil in Hl.
        split_and!; [split; [done | by intros (_ & _ & ?)] | done | lia | done].
      * apply length_nonzero in Hl. split_and!; [done | done | lia | lia].
    + destruct (decide (length (UserCertParams.AllowedLogins c) = 0%nat)) as [Hl | Hl];
        simpl.
      * apply length_zero_iff_nil in Hl.
        split_and!; [split; [done | by intros (_ & _ & ?)]
                    | by rewrite SetTTL_same | lia | done].
      * apply length_nonzero in Hl.
        split_and!; [done | by rewrite SetTTL_same | lia | lia].
Qed.

(** X11.  [CheckAndSetDefaults] of [UserCertParams] is idempotent: run again
    on the parameters it left behind, it returns the same error and changes
    nothing. *)
Theorem X11_user_params_idempotent (c : UserCertParams.t) :
  UserCertParams_CheckAndSetDefaults (UserCertParams_CheckAndSetDefaults c).1 =
  UserCertParams_CheckAndSetDefaults c.
Proof.
  unfold UserCertParams_CheckAndSetDefaults.
  destruct (decide (length (UserCertParams.PrivateCASigningKey c) = 0%nat
                    ∨ UserCertParams.CASigningAlg c = "")) as [Hmissing | Hpresent];
    simpl.
  - by destruct (decide (_ ∨ _)).
  - destruct (decide (UserCertParams.TTL c < MinCertDuration)) as [Hlt | Hge]; simpl.
    + destruct (decide (length (UserCertParams.AllowedLogins c) = 0%nat)); simpl.
      * destruct (decide (_ ∨ _)); [done|].
        destruct (decide (MinCertDuration < MinCertDuration)); [lia|].
        by destruct (decide (_ = 0%nat)).
      * destruct (decide (_ ∨ _)); [done|].
        destruct (decide (MinCertDuration < MinCertDuration)); [lia|].
        by destruct (decide (_ = 0%nat)).
    + destruct (decide (length (UserCertParams.AllowedLogins c) = 0%nat)); simpl.
      * destruct (decide (_ ∨ _)); [done|].
        destruct (decide (UserCertParams.TTL c < MinCertDuration)); [lia|].
        by destruct (decide (_ = 0%nat)).
      * destruct (decide (_ ∨ _)); [done|].
        destruct (decide (UserCertParams.TTL c < MinCertDuration)); [lia|].
        by destruct (decide (_ = 0%nat)).
Qed.

(** X12.  What a failed [CheckAndSetDefaults] of [UserCertParams] leaves
    behind.  When the signing key or the algorithm is missing, the
    parameters are untouched.  When only the allowed logins are missing, the
    error is returned after the TTL has been raised: a TTL below
    [MinCertDuration] is [MinCertDuration] afterwards. *)
Theorem X12_user_params_after_failure (c : UserCertParams.t) :
  (UserCertParams.PrivateCASigningKey c = [] ∨ UserCertParams.CASigningAlg c = "" →
   UserCertParams_CheckAndSetDefaults c =
     (c, Some (trace_BadParameter "PrivateCASigningKey and CASigningAlg are required" []))) ∧
  (UserCertParams.PrivateCASigningKey c ≠ [] →
   UserCertParams.CASigningAlg c ≠ "" →
   UserCertParams.AllowedLogins c = [] →
   UserCertParams_CheckAndSetDefaults c =
     (UserCertParams.SetTTL (Z.max (UserCertParams.TTL c) MinCertDuration) c,
      Some (trace_BadParameter "AllowedLogins are required" []))).
Proof.
  unfold UserCertParams_CheckAndSetDefaults. split.
  - intros Hmissing. destruct (decide (_ ∨ _)) as [_ | Hpresent]; [done|].
    exfalso. apply Hpresent. destruct Hmissing as [-> | ->]; [by left | by right].
  - intros Hk Ha Hl. destruct (decide (_ ∨ _)) as [[Hlen | ?] | _]; [| done |].
    { by apply length_zero_iff_nil in Hlen. }
    destruct (decide (UserCertParams.TTL c < MinCertDuration)) as [Hlt | Hge]; simpl.
    + rewrite Hl. simpl. by rewrite Z.max_r by lia.
    + rewrite Hl. simpl. rewrite Z.max_l by lia. by rewrite SetTTL_same.
Qed.

(** X13.  [Check] of [HostCertParams] returns no error exactly when the
    signing key and algorithm are present, a host ID or at least one
    principal is given, the cluster name is present, and the roles pass
    their own check.  The roles are looked at last: an error of theirs is
    returned unchanged, and only when everything else is in order. *)
Theorem X13_host_params_valid_iff (c : HostCertParams.t) :
  (HostCertParams_Check c = None ↔
     HostCertParams.PrivateCASigningKey c ≠ [] ∧
     HostCertParams.CASigningAlg c ≠ "" ∧
     (HostCertParams.HostID c ≠ "" ∨ HostCertParams.Principals c ≠ []) ∧
     HostCertParams.ClusterName c ≠ "" ∧
     SystemRoles_Check (HostCertParams.Roles c) = None) ∧
  (∀ err,
     HostCertParams.PrivateCASigningKey c ≠ [] →
     HostCertParams.CASigningAlg c ≠ "" →
     HostCertParams.HostID c ≠ "" ∨ HostCertParams.Principals c ≠ [] →
     HostCertParams.ClusterName c ≠ "" →
     SystemRoles_Check (HostCertParams.Roles c) = Some err →
     HostCertParams_Check c = Some err).
Proof.
  unfold HostCertParams_Check, Wrap.
  destruct (decide (length (HostCertParams.PrivateCASigningKey c) = 0%nat
                    ∨ HostCertParams.CASigningAlg c = "")) as [Hmissing | Hpresent].
  { split.
    - split; [done|]. intros (Hk & Ha & _). destruct Hmissing as [Hlen | ?]; [|done].
      by apply length_zero_iff_nil in Hlen.
    - intros err Hk Ha. destruct Hmissing as [Hlen | ?]; [|done].
      by apply length_zero_iff_nil in Hlen. }
  assert (HostCertParams.PrivateCASigningKey c ≠ [] ∧
          HostCertParams.CASigningAlg c ≠ "") as [Hk Ha].
  { split; intros Heq; apply Hpresent; [left; by rewrite Heq | by right]. }
  destruct (decide (HostCertParams.HostID c = ""
                    ∧ length (HostCertParams.Principals c) = 0%nat)) as [[Hid Hpr] | Hwho].
  { apply length_zero_iff_nil in Hpr. split.
    - split; [done|]. by intros (_ & _ & [? | ?] & _).
    - by intros err _ _ [? | ?]. }
  assert (HostCertParams.HostID c ≠ "" ∨ HostCertParams.Principals c ≠ []) as Hwho'.
  { destruct (decide (HostCertParams.HostID c = "")) as [Hid | Hid]; [|by left].
    right. intros Hnil. apply Hwho. by rewrite Hnil. }
  destruct (decide (HostCertParams.ClusterName c = "")) as [Hcn | Hcn].
  { split; [split; [done | by intros (_ & _ & _ & ? & _)] | by intros err _ _ _ ?]. }
  destruct (SystemRoles_Check (HostCertParams.Roles c)) as [err|].
  - split; [split; [done | by intros (_ & _ & _ & _ & ?)] | by intros err' _ _ _ _ [= ->]].
  - split; [done | by intros err _ _ _ _ ?].
Qed.

(** ** Role export format *)

(** X14.  With a codec that decodes what it encoded, roles that were
    marshalled by [MarshalCertRoles] come back from [UnmarshalCertRoles]
    unchanged and in order; the text that travels in between is turned into
    bytes and back without loss. *)
Theorem X14_cert_roles_roundtrip (roles : list string) (data : string) :
  codec_roundtrip_roles →
  MarshalCertRoles roles = Ok data →
  UnmarshalCertRoles data = Ok roles.
Proof.
  intros Hrt. unfold MarshalCertRoles, UnmarshalCertRoles.
  destruct (json_Marshal_CertRoles _) as [out|err] eqn:Hout; [|done].
  intros [= <-]. rewrite String.list_byte_of_string_of_list_byte.
  by rewrite (Hrt _ _ Hout).
Qed.

(** ** Codec *)

(** A CA whose host or user checks pass has a checking key, a TLS key pair,
    and not both roles and a role map. *)
Lemma checkUserOrHostCA_None (ca : CertAuthorityV2.t) :
  checkUserOrHostCA ca = None →
  GetCheckingKeys ca ≠ [] ∧ GetTLSKeyPairs ca ≠ [] ∧
  (GetRoles ca = [] ∨ GetRoleMap ca = []).
Proof.
  intros Hnone. destruct (checkUserOrHostCA_cases ca) as (Hnock & Hnotls & Hrest).
  destruct (decide (GetCheckingKeys ca = [])) as [Hck | Hck].
  { rewrite (Hnock Hck) in Hnone. done. }
  destruct (decide (GetTLSKeyPairs ca = [])) as [Htls | Htls].
  { rewrite (Hnotls Hck Htls) in Hnone. done. }
  split_and!; [done | done |].
  destruct (Hrest Hck Htls) as (Hcheckers & Hsigners & Hroles).
  destruct (GetCheckers ca) as [checkers|err] eqn:Hc.
  2: { rewrite (Hcheckers err eq_refl) in Hnone. done. }
  destruct (GetSigners ca) as [signers|err] eqn:Hs.
  2: { rewrite (Hsigners err (ex_intro _ _ eq_refl) eq_refl) in Hnone. done. }
  destruct (Hroles (ex_intro _ _ eq_refl) (ex_intro _ _ eq_refl)) as [Hboth _].
  destruct (decide (GetRoles ca = [])) as [? | Hr]; [by left|].
  destruct (decide (GetRoleMap ca = [])) as [? | Hm]; [by right|].
  rewrite (Hboth Hr Hm) in Hnone. done.
Qed.

(** A CA that is a Go object's data up to the resource ID is the data of
    that object with the resource ID stamped on it, an object equivalent to
    the first. *)
Lemma Go_copy_up_to_resource_id (out : CertAuthorityV2.t) (g : GoCertAuthorityV2.t) :
  SetResourceID 0 out = SetResourceID 0 (GoCertAuthorityV2.model g) →
  GoCertAuthorityV2.model (GoCertAuthorityV2.SetResourceID (GetResourceID out) g) = out ∧
  CertAuthoritiesEquivalent (GoCertAuthorityV2.SetResourceID (GetResourceID out) g) g = true.
Proof.
  intros Heq. split; [|apply CertAuthoritiesEquivalent_SetResourceID].
  rewrite model_SetResourceID, <- (SetResourceID_twice _ 0 (GoCertAuthorityV2.model g)), <- Heq.
  by rewrite SetResourceID_twice, SetResourceID_own.
Qed.

(** X15.  [UnmarshalCertAuthority] never returns a CA that has not passed
    validation: the CA returned is the validated object up to its resource
    ID, and as a Go object it is equivalent to the validated one.  Its type
    is therefore one of the three recognised ones; a host or user CA
    returned has a checking key, a TLS key pair, and not both roles and a
    role map; a JWT signer returned has a JWT key pair. *)
Theorem X15_unmarshal_returns_validated (bytes_ : bytes)
    (opts : list MarshalOption) (out : CertAuthorityV2.t) :
  UnmarshalCertAuthority bytes_ opts = Ok out →
  ∃ ca ca',
    FastUnmarshal_CertAuthorityV2 bytes_ = Ok ca ∧
    ValidateCertAuthority ca = (ca', None) ∧
    (SetResourceID 0 out = SetResourceID 0 ca' ∧
     ∀ g, GoCertAuthorityV2.model g = ca' →
          GoCertAuthorityV2.model
            (GoCertAuthorityV2.SetResourceID (GetResourceID out) g) = out ∧
          CertAuthoritiesEquivalent
            (GoCertAuthorityV2.SetResourceID (GetResourceID out) g) g = true) ∧
    match GetType out with
    | HostCA | UserCA =>
        GetCheckingKeys out ≠ [] ∧ GetTLSKeyPairs out ≠ [] ∧
        (GetRoles out = [] ∨ GetRoleMap out = [])
    | JWTSigner => GetJWTKeyPairs out ≠ []
    | OtherCertAuthType _ => False
    end.
Proof.
  unfold UnmarshalCertAuthority.
  destruct (CollectOptions opts) as [cfg|?]; [|done].
  destruct (FastUnmarshal_ResourceHeader bytes_) as [h|?]; [|done].
  destruct (decide (ResourceHeader.Version h = V2)); [|done].
  destruct (FastUnmarshal_CertAuthorityV2 bytes_) as [ca|?]; [|done].
  destruct (ValidateCertAuthority ca) as [ca' [err|]] eqn:Hvalid; [done|].
  intros Hout. exists ca, ca'. split; [done|]. split; [done|]. split.
  - assert (SetResourceID 0 out = SetResourceID 0 ca') as Heq
      by (by destruct (decide (MarshalConfig.ID cfg ≠ 0)); injection Hout as <-).
    split; [done|]. intros g Hg. apply Go_copy_up_to_resource_id. by rewrite Hg.
  - assert (CertAuthorityV2.Spec out = CertAuthorityV2.Spec ca') as Hspec.
    { by destruct (decide (MarshalConfig.ID cfg ≠ 0)); injection Hout as <-. }
    rewrite ValidateCertAuthority_unfold in Hvalid.
    injection Hvalid as Hca' Herr.
    destruct ((CertAuthority_CheckAndSetDefaults ca).2); [done|].
    rewrite Hca' in Herr.
    unfold GetType, GetCheckingKeys, GetTLSKeyPairs, GetRoles, GetRoleMap,
      GetJWTKeyPairs.
    rewrite Hspec.
    fold (GetType ca') (GetCheckingKeys ca') (GetTLSKeyPairs ca') (GetRoles ca')
      (GetRoleMap ca') (GetJWTKeyPairs ca').
    destruct (GetType ca').
    + by apply checkUserOrHostCA_None.
    + by apply checkUserOrHostCA_None.
    + unfold checkJWTKeys in Herr.
      destruct (decide (length (GetJWTKeyPairs ca') = 0%nat)); [done|].
      by apply length_nonzero.
    + done.
Qed.

(** X16.  [UnmarshalClusterName] returns a resource exactly when the buffer
    is non-empty, the options can be collected, the buffer decodes, and the
    decoded cluster name passes its self-check.  An empty buffer is refused
    before the options are even looked at. *)
Theorem X16_unmarshal_cluster_name_iff (bytes_ : bytes) (opts : list MarshalOption) :
  (is_Ok (UnmarshalClusterName bytes_ opts) ↔
     bytes_ ≠ [] ∧ is_Ok (CollectOptions opts) ∧
     ∃ c, FastUnmarshal_ClusterNameV2 bytes_ = Ok c ∧
          (ClusterName_CheckAndSetDefaults c).2 = None) ∧
  (bytes_ = [] →
   UnmarshalClusterName bytes_ opts =
     Err (trace_BadParameter "missing resource data" [])).
Proof.
  unfold UnmarshalClusterName. split.
  - destruct (decide (length bytes_ = 0%nat)) as [Hzero | Hsome].
    { apply length_zero_iff_nil in Hzero.
      split; [intros [? ?]; discriminate | by intros [? _]]. }
    apply length_nonzero in Hsome.
    destruct (CollectOptions opts) as [cfg|err].
    2: { split; [intros [? ?]; discriminate | intros (_ & [? ?] & _); discriminate]. }
    destruct (FastUnmarshal_ClusterNameV2 bytes_) as [c|err].
    2: { split; [intros [? ?]; discriminate | intros (_ & _ & ? & ? & _); discriminate]. }
    destruct (ClusterName_CheckAndSetDefaults c) as [c' [err|]] eqn:Hcheck.
    + split; [intros [? ?]; discriminate|].
      intros (_ & _ & c0 & [= <-] & Hnone). rewrite Hcheck in Hnone. done.
    + split; [|by eexists]. intros _.
      split_and!; [done | by eexists |]. exists c. by rewrite Hcheck.
  - by intros ->.
Qed.

(** X17.  The storage round trip of a CA.  Take a stored CA of version [V2]
    whose copy with resource ID zero is a validated CA, and a codec that
    decodes what it encoded.  The bytes of a marshal without options
    unmarshal, without options, to the CA with resource ID zero, and with
    [WithResourceID id] to the CA with resource ID [id]; so unmarshalling
    with the CA's own resource ID gives back the CA. *)
Theorem X17_marshal_then_stamp_id (σ : gmap loc CertAuthorityV2.t) (p : loc)
    (ca : CertAuthorityV2.t) :
  codec_roundtrip →
  σ !! p = Some ca →
  GetVersion ca = V2 →
  validated (SetResourceID 0 ca) →
  ∃ σ',
    MarshalCertAuthority (CertAuthorityV2_ptr p) [] σ =
      Some (σ', FastMarshal_CertAuthorityV2 (SetResourceID 0 ca)) ∧
    ∀ b, FastMarshal_CertAuthorityV2 (SetResourceID 0 ca) = Ok b →
         (∀ id, UnmarshalCertAuthority b [WithResourceID id] = Ok (SetResourceID id ca)) ∧
         UnmarshalCertAuthority b [] = Ok (SetResourceID 0 ca) ∧
         UnmarshalCertAuthority b [WithResourceID (GetResourceID ca)] = Ok ca.
Proof.
  intros Hrt Hp Hv Hvalid.
  destruct (MarshalCertAuthority_result [] MarshalConfig.zero σ p ca eq_refl eq_refl Hp)
    as (σ' & r & Hm & Hr & _).
  exists σ'. rewrite Hm, (Hr Hv). split; [done|].
  intros b Hb. destruct (Hrt _ _ Hb) as [Hh Hdec].
  assert (∀ id, UnmarshalCertAuthority b [WithResourceID id] = Ok (SetResourceID id ca))
    as Hstamp.
  { intros id. unfold UnmarshalCertAuthority. simpl. rewrite Hh, Hdec. simpl.
    fold (GetVersion ca). destruct (decide (GetVersion ca = V2)); [|done].
    unfold validated in Hvalid. rewrite Hvalid.
    destruct (decide (id ≠ 0)) as [Hid | Hid]; [done|].
    apply dec_stable in Hid. by subst id. }
  split_and!; [done | |].
  - unfold UnmarshalCertAuthority. simpl. rewrite Hh, Hdec. simpl.
    fold (GetVersion ca). destruct (decide (GetVersion ca = V2)); [|done].
    unfold validated in Hvalid. rewrite Hvalid.
    by destruct (decide (0 ≠ 0)).
  - by rewrite Hstamp, SetResourceID_own.
Qed.

(** X18.  The round trip of a cluster name.  Take a stored cluster name of
    version [V2] that passes its self-check unchanged, and a codec that
    decodes what it encoded.  Marshalling with [PreserveResourceID] leaves
    the store alone, and the bytes, when there are any, unmarshal to the
    same cluster name; an empty serialisation would be refused. *)
Theorem X18_cluster_name_roundtrip (σ : gmap loc ClusterNameV2.t) (p : loc)
    (c : ClusterNameV2.t) :
  codec_roundtrip_cn →
  σ !! p = Some c →
  ClusterNameV2.GetVersion c = V2 →
  ClusterName_CheckAndSetDefaults c = (c, None) →
  MarshalClusterName (ClusterNameV2_ptr p) [PreserveResourceID] σ =
    Some (σ, FastMarshal_ClusterNameV2 c) ∧
  ∀ b, FastMarshal_ClusterNameV2 c = Ok b →
       (b ≠ [] → UnmarshalClusterName b [] = Ok c) ∧
       (b = [] → is_Err (UnmarshalClusterName b [])).
Proof.
  intros Hrt Hp Hv Hcheck. split.
  - unfold MarshalClusterName. simpl. rewrite Hp. simpl.
    by destruct (decide (ClusterNameV2.GetVersion c ≠ V2)).
  - intros b Hb. specialize (Hrt _ _ Hb). unfold UnmarshalClusterName. split.
    + intros Hne. apply length_nonzero in Hne.
      destruct (decide (length b = 0%nat)); [done|].
      simpl. rewrite Hrt, Hcheck. simpl.
      by destruct (decide (0 ≠ 0)).
    + intros ->. simpl. by eexists.
Qed.

(** X19.  Bytes returned by [MarshalCertAuthority] are always the
    serialisation of a [CertAuthorityV2] of version [V2] that is the object
    behind the caller's pointer up to the resource ID, as a Go object one
    equivalent to it; with [PreserveResourceID]
    they are the serialisation of that very object and the store comes back
    as it was. *)
Theorem X19_marshal_output (certAuthority : CertAuthority)
    (opts : list MarshalOption) (σ σ' : gmap loc CertAuthorityV2.t) (b : bytes) :
  MarshalCertAuthority certAuthority opts σ = Some (σ', Ok b) →
  ∃ p ca cfg serialised,
    certAuthority = CertAuthorityV2_ptr p ∧
    σ !! p = Some ca ∧
    CollectOptions opts = Ok cfg ∧
    GetVersion ca = V2 ∧
    FastMarshal_CertAuthorityV2 serialised = Ok b ∧
    GetVersion serialised = V2 ∧
    (SetResourceID 0 serialised = SetResourceID 0 ca ∧
     ∀ g, GoCertAuthorityV2.model g = ca →
          GoCertAuthorityV2.model
            (GoCertAuthorityV2.SetResourceID (GetResourceID serialised) g) = serialised ∧
          CertAuthoritiesEquivalent
            (GoCertAuthorityV2.SetResourceID (GetResourceID serialised) g) g = true) ∧
    (MarshalConfig.PreserveResourceID cfg = true → serialised = ca ∧ σ' = σ) ∧
    (MarshalConfig.PreserveResourceID cfg = false → GetResourceID serialised = 0).
Proof.
  unfold MarshalCertAuthority.
  destruct (CollectOptions opts) as [cfg|err]; [|done].
  destruct certAuthority as [p|typeName]; [|done].
  destruct (σ !! p) as [ca|] eqn:Hp; [simpl | done].
  destruct (decide (GetVersion ca ≠ V2)) as [|Hv]; [done|].
  apply dec_stable in Hv.
  destruct (MarshalConfig.PreserveResourceID cfg) eqn:Hpres; simpl.
  - intros [= <- Hb]. exists p, ca, cfg, ca.
    split_and!; try done; try congruence.
    intros g Hg. apply Go_copy_up_to_resource_id. by rewrite Hg.
  - rewrite lookup_alter_eq, lookup_insert_eq. simpl. intros [= <- Hb].
    exists p, ca, cfg, (SetResourceID 0 ca).
    split_and!; try done; try congruence.
    intros g Hg. apply Go_copy_up_to_resource_id. by rewrite Hg.
Qed.

End MoreProperties.

(** * The remaining functions on sample inputs *)

Section MoreSamples.
Import Standin StandinRest.
#[local] Existing Instance Standin.collaborators.
#[local] Existing Instance StandinRest.more_collaborators.

Lemma standin_new_ca_keeps_spec : new_ca_keeps_spec.
Proof. by intros spec. Qed.

Lemma standin_self_check_keeps_spec : self_check_keeps_spec.
Proof.
  intros ca. unfold defaulted. cbn. unfold check_ca.
  repeat case_decide; done.
Qed.

Lemma standin_codec_roundtrip_roles : codec_roundtrip_roles.
Proof.
  intros cr b Hb. cbn in Hb.
  repeat (case_decide; [simplify_eq; vm_compute; reflexivity |]).
  discriminate.
Qed.

(** The host CA under two resource IDs, as a Go object and as its data. *)
Lemma X4_witness_host_ca :
  CertAuthoritiesEquivalent StandinGo.host_ca
    (GoCertAuthorityV2.SetResourceID 0 StandinGo.host_ca) = true ∧
  GoCertAuthorityV2.model StandinGo.host_ca = host_ca ∧
  CertPool host_ca = CertPool (SetResourceID 0 host_ca) ∧
  GetTLSCerts host_ca = GetTLSCerts (SetResourceID 0 host_ca) ∧
  checkJWTKeys host_ca = checkJWTKeys (SetResourceID 5 host_ca).
Proof.
  split; [vm_compute; reflexivity|]. split; [reflexivity|].
  destruct (X4_equivalent_same_artifacts (H:=Standin.collaborators)
              host_ca (SetResourceID 0 host_ca) 0) as (_ & Hpool & Hcerts & _).
  { right. exists StandinGo.host_ca, (GoCertAuthorityV2.SetResourceID 0 StandinGo.host_ca).
    split_and!; [vm_compute; reflexivity | reflexivity | reflexivity]. }
  destruct (X4_equivalent_same_artifacts (H:=Standin.collaborators)
              host_ca (SetResourceID 5 host_ca) 0) as (_ & _ & _ & Hjwt).
  { left. reflexivity. }
  split_and!; [exact Hpool | exact Hcerts | exact Hjwt].
Defined.

Lemma X5_witness_host_ca :
  GetType (defaulted host_ca) = HostCA ∧
  ((ValidateCertAuthority host_ca).2 = None ↔
   self_check_passes host_ca ∧ key_material_ok (defaulted host_ca) ∧
   (GetRoles (defaulted host_ca) = [] ∨ GetRoleMap (defaulted host_ca) = []) ∧
   is_Ok (parseRoleMap (GetRoleMap (defaulted host_ca)))).
Proof.
  split; [reflexivity|].
  apply (X5_host_user_valid_iff host_ca). left. reflexivity.
Defined.

(** The sample JWT signer: checked keys, then a signer. *)
Lemma X7_witness_jwt_ca :
  checkJWTKeys jwt_ca = None ∧
  ∃ first rest,
    GetJWTKeyPairs jwt_ca = first :: rest ∧
    (JWTKeyPair.PrivateKey first ≠ [] →
     ∃ k, ParsePrivateKey (JWTKeyPair.PrivateKey first) = Ok k ∧
          GetJWTSigner jwt_ca 42 = jwt_New (signer_config jwt_ca 42 k)).
Proof.
  split; [vm_compute; reflexivity|].
  apply (X7_signer_of_checked_keys (H:=Standin.collaborators) jwt_ca 42).
  vm_compute; reflexivity.
Defined.

Lemma X8_witness_cluster_x :
  ∃ ca,
    NewJWTAuthority "cluster-x" = Ok ca ∧
    GetType ca = JWTSigner ∧
    GetClusterName ca = "cluster-x" ∧
    GetJWTKeyPairs ca =
      [ {| JWTKeyPair.PublicKey := text "jwt-public-9";
           JWTKeyPair.PrivateKey := text "jwt-private-9" |} ].
Proof.
  destruct (X8_NewJWTAuthority (H:=Standin.collaborators) "cluster-x" 42
              standin_new_ca_keeps_spec) as [_ Hok].
  destruct (Hok (text "jwt-public-9") (text "jwt-private-9") eq_refl)
    as (ca & Hca & Htype & Hname & Hpairs & _).
  exists ca. split_and!; [exact Hca | exact Htype | exact Hname | exact Hpairs].
Defined.

Lemma X9_witness_host :
  ∃ err,
    (ValidateCertAuthority
       (NewCertAuthority HostCA "example.com" [text "ssh-private-1"]
          [text "ssh-public-1"] ["admin"] 0)).2 = Some err.
Proof.
  apply (X9_NewCertAuthority_not_yet_valid HostCA "example.com");
    [exact standin_new_ca_keeps_spec | exact standin_self_check_keeps_spec].
Defined.

Lemma X14_witness_two_roles :
  MarshalCertRoles sample_roles = Ok "{version:1,roles:[admin,auditor]}" ∧
  UnmarshalCertRoles "{version:1,roles:[admin,auditor]}" = Ok sample_roles.
Proof.
  split; [vm_compute; reflexivity|].
  apply (X14_cert_roles_roundtrip sample_roles);
    [exact standin_codec_roundtrip_roles | vm_compute; reflexivity].
Defined.

Lemma X15_witness_host_ca :
  UnmarshalCertAuthority buf_host_ca [] = Ok host_ca ∧
  GetCheckingKeys host_ca ≠ [] ∧ GetTLSKeyPairs host_ca ≠ [] ∧
  (GetRoles host_ca = [] ∨ GetRoleMap host_ca = []).
Proof.
  assert (UnmarshalCertAuthority buf_host_ca [] = Ok host_ca) as Hrun
    by (vm_compute; reflexivity).
  split; [exact Hrun|].
  destruct (X15_unmarshal_returns_validated buf_host_ca [] host_ca Hrun)
    as (ca & ca' & _ & _ & _ & Hshape).
  exact Hshape.
Defined.

Lemma X17_witness_host_ca :
  (GetVersion host_ca = V2 ∧ validated (SetResourceID 0 host_ca)) ∧
  UnmarshalCertAuthority buf_host_ca_id0 [WithResourceID 7] = Ok host_ca ∧
  UnmarshalCertAuthority buf_host_ca_id0 [] = Ok (SetResourceID 0 host_ca).
Proof.
  assert (validated (SetResourceID 0 host_ca)) as Hvalid by (vm_compute; reflexivity).
  split; [split; [reflexivity | exact Hvalid] |].
  destruct (X17_marshal_then_stamp_id {[ 1%positive := host_ca ]} 1%positive host_ca)
    as (σ' & _ & Hun);
    [exact standin_codec_roundtrip | reflexivity | reflexivity | exact Hvalid |].
  destruct (Hun buf_host_ca_id0) as (_ & Hzero & Hown); [reflexivity|].
  split; [exact Hown | exact Hzero].
Defined.

Lemma X18_witness_cluster_name :
  (ClusterNameV2.GetVersion cluster_name = V2 ∧
   ClusterName_CheckAndSetDefaults cluster_name = (cluster_name, None)) ∧
  MarshalClusterName (ClusterNameV2_ptr 1%positive) [PreserveResourceID]
    {[ 1%positive := cluster_name ]} =
    Some ({[ 1%positive := cluster_name ]}, Ok buf_cluster_name) ∧
  UnmarshalClusterName buf_cluster_name [] = Ok cluster_name.
Proof.
  split; [split; reflexivity |].
  destruct (X18_cluster_name_roundtrip {[ 1%positive := cluster_name ]} 1%positive
              cluster_name) as [Hm Hun];
    [exact standin_codec_roundtrip_cn | reflexivity | reflexivity | reflexivity |].
  split; [exact Hm|].
  destruct (Hun buf_cluster_name) as [Hok _]; [reflexivity|].
  apply Hok. discriminate.
Defined.

Lemma X19_witness_host_ca :
  ∃ σ' serialised,
    MarshalCertAuthority (CertAuthorityV2_ptr 1%positive) [] {[ 1%positive := host_ca ]} =
      Some (σ', Ok buf_host_ca_id0) ∧
    FastMarshal_CertAuthorityV2 serialised = Ok buf_host_ca_id0 ∧
    SetResourceID 0 serialised = SetResourceID 0 host_ca ∧
    CertAuthoritiesEquivalent
      (GoCertAuthorityV2.SetResourceID (GetResourceID serialised) StandinGo.host_ca)
      StandinGo.host_ca = true ∧
    GetResourceID serialised = 0.
Proof.
  destruct (MarshalCertAuthority (CertAuthorityV2_ptr 1%positive) []
              {[ 1%positive := host_ca ]}) as [[σ' r]|] eqn:Hm;
    [|vm_compute in Hm; discriminate].
  assert (r = Ok buf_host_ca_id0) as ->.
  { vm_compute in Hm. injection Hm as _ <-. reflexivity. }
  destruct (X19_marshal_output _ _ _ _ _ Hm)
    as (p & ca & cfg & serialised & Hptr & Hp & Hcfg & _ & Hser & _ & [Heq Hgo] & _ & Hzero).
  injection Hptr as <-.
  assert (ca = host_ca) as -> by (cbv in Hp; by injection Hp).
  exists σ', serialised.
  split_and!; [reflexivity | exact Hser | exact Heq | apply Hgo; reflexivity |].
  apply Hzero. vm_compute in Hcfg. injection Hcfg as <-. reflexivity.
Defined.

End MoreSamples.
